(** * Rootfinding: fixed-point iteration, Newton-Raphson, secant, Steffensen

    A shallow embedding of [src/numerical_methods/Rootfinding.py] and the
    properties of its four solvers.

    - Numbers: Python dispatches [-], [*], [/], [abs], [<] and [==] on the
      run-time type of its operands, so the solvers are written once over a
      class [Number] of such operations.  Two instances are given: IEEE-754
      binary64 ([float], what a Python [float] is) and the exact rationals
      [Qc] (the arithmetic of "real numbers" that the documentation speaks of).
    - Effects: the module-level table [resultados] is the only mutable state
      the solvers share; it is threaded through a small state monad [Py]
      which also carries raised exceptions and a write-only log of
      observable events (loop iterations started, calls of the
      caller-supplied functions, lines printed).
    - Arrays: [np.ndarray] values are one-dimensional lists of numbers; a
      second model of fixed-point iteration ([store_fixed_point_iteration])
      puts them in a store of mutable objects, to study what the solver may
      overwrite, and is related to the first.
    - Operators: [/] and [** 2] are those of Python's own [float], which
      raise [ZeroDivisionError] and [OverflowError]; section [Dispatch]
      gives the scalar solvers once more with these two operators left
      open, for [numpy.float64] values (whose operators raise nothing) and
      for a square that is not the correctly rounded product. *)

From Stdlib Require Import ZArith List Bool String Lia.
From Stdlib Require Import Floats QArith Qcanon.
From stdpp Require Import base option list gmap.

Local Open Scope Z_scope.

(* Decimal float literals stand for the nearest binary64 number. *)
#[local] Set Warnings "-inexact-float".

(** ** Numbers *)

Class Number (num : Type) := {
  zero : num;                       (* [0.0], the divisor [/] refuses *)
  two : num;                        (* the literal [2] of [2 * x_next] *)
  hundred : num;                    (* the literal [100] of the error percentage *)
  rtol_default : num;               (* numpy's default [rtol=1e-05] *)
  add : num -> num -> num;
  sub : num -> num -> num;
  mul : num -> num -> num;
  truediv : num -> num -> num;      (* the quotient, for a divisor that is not zero *)
  abs : num -> num;
  eqb : num -> num -> bool;         (* [==] *)
  ltb : num -> num -> bool;         (* [<]  *)
  leb : num -> num -> bool;         (* [<=] *)
  isfinite : num -> bool;           (* neither an infinity nor a NaN *)
}.

(** Python [float]: IEEE-754 binary64 with round-to-nearest-even. *)
#[export] Instance float_Number : Number float := {|
  zero := 0%float;
  two := 2%float;
  hundred := 100%float;
  rtol_default := 0x1.4f8b588e368f1p-17%float;
  add := PrimFloat.add;
  sub := PrimFloat.sub;
  mul := PrimFloat.mul;
  truediv := PrimFloat.div;
  abs := PrimFloat.abs;
  eqb := PrimFloat.eqb;
  ltb := PrimFloat.ltb;
  leb := PrimFloat.leb;
  isfinite := PrimFloat.is_finite;
|}.

(** Exact rational arithmetic (canonical fractions, so that [=] is equality
    of values). *)
Definition Qc_ltb (x y : Qc) : bool :=
  match (x ?= y)%Qc with Lt => true | _ => false end.
Definition Qc_leb (x y : Qc) : bool :=
  match (x ?= y)%Qc with Gt => false | _ => true end.
Definition Qc_abs (x : Qc) : Qc := if Qc_ltb x (Q2Qc 0) then (- x)%Qc else x.

#[export] Instance Qc_Number : Number Qc := {|
  zero := Q2Qc 0;
  two := Q2Qc 2;
  hundred := Q2Qc 100;
  rtol_default := Q2Qc (1 # 100000);
  add := Qcplus;
  sub := Qcminus;
  mul := Qcmult;
  truediv := Qcdiv;
  abs := Qc_abs;
  eqb := Qc_eq_bool;
  ltb := Qc_ltb;
  leb := Qc_leb;
  isfinite := fun _ => true;
|}.

(** ** Exceptions, events and the monad of the solvers *)

Inductive exn : Type :=
  | ValueError (msg : string)
  | ZeroDivisionError
  | OverflowError.

(** The one failure the solvers raise themselves (lines 47, 91, 144, 191):
    a [ValueError] with this message. *)
Definition ConvergenceError : exn :=
  ValueError "Did not converge within the maximum number of iterations.".

(** What [np.allclose] raises for shapes that do not broadcast. *)
Definition BroadcastError : exn :=
  ValueError "operands could not be broadcast together".

Inductive result (A : Type) : Type :=
  | Returned (a : A)
  | Raised (e : exn).
Arguments Returned {A} a.
Arguments Raised {A} e.

(** One round of a loop body either falls through to the next round with new
    values of the variables the loop carries, or leaves the function with
    [return]. *)
Inductive flow (S A : Type) : Type :=
  | Continue (s : S)
  | Return (a : A).
Arguments Continue {S A} s.
Arguments Return {S A} a.

Section Solvers.
Context {num : Type} `{Number num}.

(** A row [[i, p, f(p)]] of the table [resultados]. *)
Definition row : Type := Z * num * num.
Definition table : Type := list row.

Inductive event : Type :=
  | Iter (i : Z)                    (* a loop body starts with loop variable [i] *)
  | CallF (x : num)                 (* the caller's [f] is applied to a scalar *)
  | CallFp (x : num)                (* the caller's [fp] is applied *)
  | CallFvec (x : list num)         (* the caller's [f] is applied to an array *)
  | PrintTable (t : table)          (* [print(resultados)] *)
  | PrintER (v : num)               (* [print(f"ER = {v}%")] *)
  | PrintMsg (s : string).

(** A computation reads and updates the table, logs events and either
    returns a value or raises. *)
Definition Py (A : Type) : Type := table -> result A * table * list event.

Definition ret {A} (a : A) : Py A := fun t => (Returned a, t, []).

Definition bind {A B} (m : Py A) (k : A -> Py B) : Py B := fun t =>
  match m t with
  | (Returned a, t1, w1) =>
      match k a t1 with (r, t2, w2) => (r, t2, w1 ++ w2) end
  | (Raised e, t1, w1) => (Raised e, t1, w1)
  end.

Definition raise {A} (e : exn) : Py A := fun t => (Raised e, t, []).
Definition emit (e : event) : Py unit := fun t => (Returned tt, t, [e]).

Definition clear_rows : Py unit := fun _ => (Returned tt, [], []).
Definition add_row (r : row) : Py unit := fun t => (Returned tt, t ++ [r], []).
Definition print_resultados : Py unit := fun t => (Returned tt, t, [PrintTable t]).

(** Calls of the caller-supplied functions, which are pure and total here. *)
Definition call_f (f : num -> num) (x : num) : Py num :=
  fun t => (Returned (f x), t, [CallF x]).
Definition call_fp (fp : num -> num) (x : num) : Py num :=
  fun t => (Returned (fp x), t, [CallFp x]).
Definition call_fvec (f : list num -> list num) (x : list num) : Py (list num) :=
  fun t => (Returned (f x), t, [CallFvec x]).

(** Projections of a finished run. *)
Definition outcome {A} (r : result A * table * list event) : result A := r.1.1.
Definition final_table {A} (r : result A * table * list event) : table := r.1.2.
Definition events {A} (r : result A * table * list event) : list event := r.2.

Notation "'let*' x ':=' e 'in' k" := (bind e (fun x => k))
  (at level 10, x binder, e at level 100, k at level 200, only parsing).

(** *** Python operators that can raise *)

(** [x / y] on Python's own numbers ([float], [int]), the type the
    signatures declare: true division refuses a zero divisor.  When an
    operand is a [numpy.float64] the operator is numpy's, which raises
    nothing: see [np_div]. *)
Definition py_div (x y : num) : Py num :=
  if eqb y zero then raise ZeroDivisionError else ret (truediv x y).

(** [x ** 2] on Python's own numbers: the square, refused when a finite [x]
    overflows.  The square is taken here to be the correctly rounded product
    [x * x]; CPython asks the C library for [pow(x, 2.0)], which may differ
    from it in the last bit: see [py_pow2_with], where the square is left
    open. *)
Definition py_pow2 (x : num) : Py num :=
  if isfinite x && negb (isfinite (mul x x)) then raise OverflowError
  else ret (mul x x).

(** *** numpy *)

(** [np.isclose(a, b, rtol, atol)] on one pair of components:
    [(|a - b| <= atol + rtol * |b|) & isfinite(b) | (a == b)]. *)
Definition isclose (a b rtol atol : num) : bool :=
  (leb (abs (sub a b)) (add atol (mul rtol (abs b))) && isfinite b) || eqb a b.

(** Broadcasting of two one-dimensional arrays: equal lengths pair up, a
    one-element array is stretched, anything else does not broadcast. *)
Definition broadcast (a b : list num) : option (list (num * num)) :=
  if (length a =? length b)%nat then Some (combine a b)
  else match a, b with
       | [x], _ => Some (combine (repeat x (length b)) b)
       | _, [y] => Some (combine a (repeat y (length a)))
       | _, _ => None
       end.

(** [np.allclose(a, b, atol=atol)]: [rtol] keeps its default.  The test is
    a pure function of the two arrays; [allclose] is its place in a solver. *)
Definition np_allclose (a b : list num) (atol : num) : result bool :=
  match broadcast a b with
  | Some ps =>
      Returned (forallb (fun xy => isclose xy.1 xy.2 rtol_default atol) ps)
  | None => Raised BroadcastError
  end.

Definition allclose (a b : list num) (atol : num) : Py bool :=
  fun t => (np_allclose a b atol, t, []).

(** *** [for i in range(n)] *)

Fixpoint for_range {S A} (n : nat) (i : Z) (body : Z -> S -> Py (flow S A))
    (s : S) (after : Py A) : Py A :=
  match n with
  | O => after
  | Datatypes.S n' =>
      let* _ := emit (Iter i) in
      let* r := body i s in
      match r with
      | Return a => ret a
      | Continue s' => for_range n' (i + 1) body s' after
      end
  end.

(** *** The four solvers *)

(** Lines 41-47.  [np.array] copies; in this value model a copy is the same
    list. *)
Definition fixed_point_body (f : list num -> list num) (tol : num)
    (i : Z) (x : list num) : Py (flow (list num) (list num)) :=
  let* x_new := call_fvec f x in
  let* close := allclose x_new x tol in
  if close then ret (Return x_new) else ret (Continue x_new).

Definition fixed_point_iteration (f : list num -> list num) (x0 : list num)
    (tol : num) (max_iter : Z) : Py (list num) :=
  let x := x0 in
  for_range (Z.to_nat max_iter) 0 (fixed_point_body f tol) x
    (raise ConvergenceError).

(** Lines 81-91. *)
Definition Newton_body (f fp : num -> num) (TOL : num)
    (i : Z) (p_0 : num) : Py (flow num num) :=
  let* a := call_f f p_0 in
  let* b := call_fp fp p_0 in
  let* q := py_div a b in
  let p := sub p_0 q in
  let* v := call_f f p in
  let* _ := add_row (i, p, v) in
  if ltb (abs (sub p p_0)) TOL then
    let* _ := print_resultados in
    let* e := py_div (abs (sub p p_0)) (abs p) in
    let* _ := emit (PrintER (mul e hundred)) in
    ret (Return p)
  else ret (Continue p).

Definition Newton_Raphson (f fp : num -> num) (p_0 TOL : num) (N_0 : Z)
    : Py num :=
  let* _ := clear_rows in
  for_range (Z.to_nat N_0) 0 (Newton_body f fp TOL) p_0
    (raise ConvergenceError).

(** Lines 126-144.  The loop carries [(p_0, q_0, p_1, q_1)]. *)
Definition Secante_body (f : num -> num) (TOL : num)
    (i : Z) (s : num * num * num * num) : Py (flow (num * num * num * num) num) :=
  let '(p_0, q_0, p_1, q_1) := s in
  let* d := py_div (mul q_1 (sub p_1 p_0)) (sub q_1 q_0) in
  let p := sub p_1 d in
  let* v := call_f f p in
  let* _ := add_row (i, p, v) in
  if ltb (abs (sub p p_1)) TOL then
    let* _ := print_resultados in
    let* e := py_div (abs (sub p p_1)) (abs p) in
    let* _ := emit (PrintER (mul e hundred)) in
    ret (Return p)
  else
    let* q := call_f f p in
    ret (Continue (p_1, q_1, p, q)).

Definition Secante (f : num -> num) (p_0 p_1 TOL : num) (N_0 : Z) : Py num :=
  let* _ := clear_rows in
  let* q_0 := call_f f p_0 in
  let* q_1 := call_f f p_1 in
  let* _ := add_row (0, p_0, q_0) in
  let* _ := add_row (1, p_1, q_1) in
  for_range (Z.to_nat N_0) 0 (Secante_body f TOL) (p_0, q_0, p_1, q_1)
    (raise ConvergenceError).

(** Lines 178-191.  The value returned is [None] or a number. *)
Definition denominator_of (x x_next x_next_next : num) : num :=
  add (sub x_next_next (mul two x_next)) x.

Definition steffensen_body (f : num -> num) (tol : num)
    (i : Z) (x : num) : Py (flow num (option num)) :=
  let* x_next := call_f f x in
  let* x_next_next := call_f f x_next in
  let denominator := denominator_of x x_next x_next_next in
  if ltb (abs denominator) tol then
    let* _ := emit (PrintMsg "Denominator too small. Method might not converge.") in
    ret (Return None)
  else
    let* sq := py_pow2 (sub x_next x) in
    let* q := py_div sq denominator in
    let x_new := sub x q in
    if ltb (abs (sub x_new x)) tol then ret (Return (Some x_new))
    else ret (Continue x_new).

Definition steffensen (f : num -> num) (x0 tol : num) (max_iter : Z)
    : Py (option num) :=
  let x := x0 in
  for_range (Z.to_nat max_iter) 0 (steffensen_body f tol) x
    (raise ConvergenceError).

(** *** What a run shows *)

Definition is_Iter (e : event) : bool :=
  match e with Iter _ => true | _ => false end.

Definition is_call (e : event) : bool :=
  match e with CallF _ | CallFp _ | CallFvec _ => true | _ => false end.

(** Number of loop bodies started, and of calls of caller-supplied
    functions, in a log. *)
Definition iterations (w : list event) : nat :=
  length (List.filter is_Iter w).
Definition user_calls (w : list event) : nat :=
  length (List.filter is_call w).

(** [rounds k i body s t]: the first [k] rounds from loop variable [i], when
    every one of them falls through; the variables and table they lead to
    and the events they log. *)
Fixpoint rounds {S A} (k : nat) (i : Z) (body : Z -> S -> Py (flow S A))
    (s : S) (t : table) : option (S * table * list event) :=
  match k with
  | O => Some (s, t, [])
  | Datatypes.S k' =>
      match body i s t with
      | (Returned (Continue s'), t', w) =>
          match rounds k' (i + 1) body s' t' with
          | Some (s'', t'', w') => Some (s'', t'', Iter i :: w ++ w')
          | None => None
          end
      | _ => None
      end
  end.

(** A run has ended: it returned a value or raised an exception. *)
Definition ended {B} (r : result B * table * list event) : Prop :=
  (exists v, outcome r = Returned v) \/ (exists e, outcome r = Raised e).

(** A computation that neither reads nor writes the table. *)
Definition table_blind {B} (m : Py B) : Prop :=
  exists r w, forall t, m t = (r, t, w).

End Solvers.

Arguments row : clear implicits.
Arguments table : clear implicits.
Arguments event : clear implicits.
Arguments Py : clear implicits.

(** ** Inputs of the examples (binary64) *)

(** [1e-6], the default tolerance: the binary64 number nearest to it. *)
Definition tol_default : float := 0x1.0c6f7a0b5ed8dp-20%float.

(** [lambda x: x + 1] and [lambda x: x / 2 + 1] on arrays. *)
Definition plus_one (x : list float) : list float :=
  map (fun v => (v + 1)%float) x.
Definition half_plus_one (x : list float) : list float :=
  map (fun v => (v / 2 + 1)%float) x.

(** [lambda x: x], [lambda x: x * x], [lambda x: x * x - 4] with its
    derivative [lambda x: 2 * x], and the constants [lambda x: 0.0] and
    [lambda x: 1.0]. *)
Definition identity (x : float) : float := x.
Definition square (x : float) : float := (x * x)%float.
Definition parabola (x : float) : float := (x * x - 4)%float.
Definition parabola' (x : float) : float := (2 * x)%float.
Definition null (x : float) : float := 0%float.
Definition const_one (x : float) : float := 1%float.

(** [lambda x: x * x + 1] and [lambda x: x / 2 + 1] on scalars. *)
Definition parabola_up (x : float) : float := (x * x + 1)%float.
Definition half_plus_one_scalar (x : float) : float := (x / 2 + 1)%float.

(** The closeness test as the documentation words it: every component of
    [x_new - x] is at most [tol] in absolute value. *)
Definition within_tolerance {num} `{Number num} (x_new x : list num) (tol : num)
    : bool :=
  forallb (fun xy => leb (abs (sub xy.1 xy.2)) tol) (combine x_new x).

(** ** Arrays as mutable objects

    Python passes arrays by reference, and a caller-supplied [f] may update
    the array it is given in place, build a new one, or hand back the very
    object it received.  Here a store maps references to array contents; [f]
    takes a reference and the store and yields a reference and a store. *)

Section Store.
Context {num : Type} `{Number num}.

(** [np.array(obj)]: a new array object with the contents of [obj]. *)
Definition np_array (l : positive) (h : gmap positive (list num))
    : positive * gmap positive (list num) :=
  let l' := fresh (dom h) in (l', <[l' := h !!! l]> h).

(** The loop of lines 42-46 on references. *)
Fixpoint store_fixed_point_loop
    (f : positive -> gmap positive (list num) -> positive * gmap positive (list num))
    (tol : num) (n : nat) (x : positive) (h : gmap positive (list num))
    : result positive * gmap positive (list num) :=
  match n with
  | O => (Raised ConvergenceError, h)
  | Datatypes.S n' =>
      let '(y, h1) := f x h in
      let '(x_new, h2) := np_array y h1 in
      match np_allclose (h2 !!! x_new) (h2 !!! x) tol with
      | Returned true => (Returned x_new, h2)
      | Returned false => store_fixed_point_loop f tol n' x_new h2
      | Raised e => (Raised e, h2)
      end
  end.

(** Lines 41-47 on references: [x = np.array(x0)] comes first. *)
Definition store_fixed_point_iteration
    (f : positive -> gmap positive (list num) -> positive * gmap positive (list num))
    (x0 : positive) (tol : num) (max_iter : Z) (h : gmap positive (list num))
    : result positive * gmap positive (list num) :=
  let '(x, h0) := np_array x0 h in
  store_fixed_point_loop f tol (Z.to_nat max_iter) x h0.

(** An [f] that writes to no object that existed before the call, other
    than its argument. *)
Definition writes_only_its_argument
    (f : positive -> gmap positive (list num) -> positive * gmap positive (list num))
    : Prop :=
  forall l h k, k <> l -> is_Some (h !! k) -> (f l h).2 !! k = h !! k.

(** A pure [fv] as a function on references: the result is a new object. *)
Definition on_store (fv : list num -> list num)
    (l : positive) (h : gmap positive (list num))
    : positive * gmap positive (list num) :=
  let l' := fresh (dom h) in (l', <[l' := fv (h !!! l)]> h).

End Store.

(** [x += 1; return x]: an update in place that hands back its argument. *)
Definition plus_one_in_place (l : positive) (h : gmap positive (list float))
    : positive * gmap positive (list float) :=
  (l, <[l := plus_one (h !!! l)]> h).

(** ** Laws of zero

    What the solvers need of arithmetic when an iterate sits exactly on a
    root.  The laws are worded so that they hold for binary64, with its
    signed zeros, infinities and NaN, as well as for exact arithmetic. *)
Class ZeroLaws (num : Type) `{Number num} : Prop := {
  abs_of_zero : forall z, eqb z zero = true -> abs z = zero;
  abs_nonzero : forall x, eqb x zero = false -> eqb (abs x) zero = false;
  sub_diag : forall x, isfinite x = true -> eqb (sub x x) zero = true;
  sub_zero_r : forall x z,
    eqb z zero = true -> eqb x zero = false -> sub x z = x;
  div_zero_l : forall z y,
    eqb z zero = true -> eqb y zero = false -> eqb y y = true ->
    eqb (truediv z y) zero = true;
  mul_zero_l : forall z y,
    eqb z zero = true -> isfinite y = true -> eqb (mul z y) zero = true;
  zero_sub : forall z y,
    eqb z zero = true -> eqb y zero = false -> eqb y y = true ->
    eqb (sub z y) zero = false /\ eqb (sub z y) (sub z y) = true;
}.

(** ** Further notions

    The single steps of the methods as the docstrings write them, the shape
    of a well-formed table, and one more law of arithmetic. *)

Section Steps.
Context {num : Type} `{Number num}.

(** [p_0 - f(p_0) / fp(p_0)] (line 84), for [fp(p_0)] not zero. *)
Definition Newton_step (f fp : num -> num) (p_0 : num) : num :=
  sub p_0 (truediv (f p_0) (fp p_0)).

(** [p_1 - q_1 * (p_1 - p_0) / (q_1 - q_0)] (line 133), for [q_1 - q_0] not
    zero. *)
Definition Secante_step (p_0 q_0 p_1 q_1 : num) : num :=
  sub p_1 (truediv (mul q_1 (sub p_1 p_0)) (sub q_1 q_0)).

(** [x - ((x_next - x) ** 2) / denominator] (line 186), for a square that
    does not overflow and a denominator that is not zero, with the square
    of [py_pow2]. *)
Definition steffensen_step (f : num -> num) (x : num) : num :=
  sub x (truediv (mul (sub (f x) x) (sub (f x) x))
                 (denominator_of x (f x) (f (f x)))).

(** The two points the secant method keeps, after one more round:
    [(p_0, p_1)] becomes [(p_1, p)] (lines 139-142). *)
Definition Secante_shift (f : num -> num) (ab : num * num) : num * num :=
  (ab.2, Secante_step ab.1 (f ab.1) ab.2 (f ab.2)).

(** Rows that a solver adds in rounds [start], [start + 1], ...: each holds
    the index of its round, a point, and the value of [f] at that point. *)
Fixpoint rows_from (f : num -> num) (start : Z) (t : list (Z * num * num))
    : Prop :=
  match t with
  | [] => True
  | (i, p, v) :: t' => i = start /\ v = f p /\ rows_from f (start + 1) t'
  end.

(** What a run printed, in order. *)
Definition is_print (e : event num) : bool :=
  match e with PrintTable _ | PrintER _ | PrintMsg _ => true | _ => false end.
Definition printed (w : list (event num)) : list (event num) :=
  List.filter is_print w.

(** An update of the argument in place that hands the argument back:
    [def f(x): x[:] = fv(x); return x]. *)
Definition update_in_place (fv : list num -> list num)
    (l : positive) (h : gmap positive (list num))
    : positive * gmap positive (list num) :=
  (l, <[l := fv (h !!! l)]> h).

End Steps.

(** ** Operators of other operands

    Python dispatches [/] and [**] on the run-time type of their operands.
    [py_div] and [py_pow2] are the operators of Python's own [float], the
    type that the signatures of the solvers declare.  Two things lie outside
    them.

    - When [f], [fp] or a starting point yields a [numpy.float64] (as
      [np.sin] does), lines 84, 88, 133, 137 and 186 run numpy's operators:
      these raise nothing, issue a [RuntimeWarning] at most, and yield an
      infinity or a NaN where Python's raise.
    - [x ** 2] on a Python [float] is the C library's [pow(x, 2.0)], which
      is not bound to be the correctly rounded product.

    The scalar solvers are therefore given once more, line by line as
    above, with the division and the square left open. *)

Section Dispatch.
Context {num : Type} `{Number num}.

Notation "'let*' x ':=' e 'in' k" := (bind e (fun x => k))
  (at level 10, x binder, e at level 100, k at level 200, only parsing).

(** [x / y] with a [numpy.float64] operand: the IEEE-754 quotient, also for
    a zero divisor. *)
Definition np_div (x y : num) : Py num num := ret (truediv x y).

(** [x ** 2] on a Python [float], where [pow2 x] stands for the value of
    the square: CPython settles zeros, ones, infinities and NaN itself and
    asks the C library's [pow(x, 2.0)] for the rest.  [OverflowError] when
    a finite [x] has a square that is not finite. *)
Definition py_pow2_with (pow2 : num -> num) (x : num) : Py num num :=
  if isfinite x && negb (isfinite (pow2 x)) then raise OverflowError
  else ret (pow2 x).

(** [x ** 2] with a [numpy.float64] operand. *)
Definition np_pow2_with (pow2 : num -> num) (x : num) : Py num num :=
  ret (pow2 x).

(** Lines 81-91, for the division [div]. *)
Definition Newton_body_with (div : num -> num -> Py num num)
    (f fp : num -> num) (TOL : num) (i : Z) (p_0 : num)
    : Py num (flow num num) :=
  let* a := call_f f p_0 in
  let* b := call_fp fp p_0 in
  let* q := div a b in
  let p := sub p_0 q in
  let* v := call_f f p in
  let* _ := add_row (i, p, v) in
  if ltb (abs (sub p p_0)) TOL then
    let* _ := print_resultados in
    let* e := div (abs (sub p p_0)) (abs p) in
    let* _ := emit (PrintER (mul e hundred)) in
    ret (Return p)
  else ret (Continue p).

Definition Newton_Raphson_with (div : num -> num -> Py num num)
    (f fp : num -> num) (p_0 TOL : num) (N_0 : Z) : Py num num :=
  let* _ := clear_rows in
  for_range (Z.to_nat N_0) 0 (Newton_body_with div f fp TOL) p_0
    (raise ConvergenceError).

(** Lines 126-144, for the division [div]. *)
Definition Secante_body_with (div : num -> num -> Py num num)
    (f : num -> num) (TOL : num) (i : Z) (s : num * num * num * num)
    : Py num (flow (num * num * num * num) num) :=
  let '(p_0, q_0, p_1, q_1) := s in
  let* d := div (mul q_1 (sub p_1 p_0)) (sub q_1 q_0) in
  let p := sub p_1 d in
  let* v := call_f f p in
  let* _ := add_row (i, p, v) in
  if ltb (abs (sub p p_1)) TOL then
    let* _ := print_resultados in
    let* e := div (abs (sub p p_1)) (abs p) in
    let* _ := emit (PrintER (mul e hundred)) in
    ret (Return p)
  else
    let* q := call_f f p in
    ret (Continue (p_1, q_1, p, q)).

Definition Secante_with (div : num -> num -> Py num num)
    (f : num -> num) (p_0 p_1 TOL : num) (N_0 : Z) : Py num num :=
  let* _ := clear_rows in
  let* q_0 := call_f f p_0 in
  let* q_1 := call_f f p_1 in
  let* _ := add_row (0, p_0, q_0) in
  let* _ := add_row (1, p_1, q_1) in
  for_range (Z.to_nat N_0) 0 (Secante_body_with div f TOL) (p_0, q_0, p_1, q_1)
    (raise ConvergenceError).

(** Lines 178-191, for the square [pow2] and the division [div]. *)
Definition steffensen_body_with (pow2 : num -> Py num num)
    (div : num -> num -> Py num num) (f : num -> num) (tol : num)
    (i : Z) (x : num) : Py num (flow num (option num)) :=
  let* x_next := call_f f x in
  let* x_next_next := call_f f x_next in
  let denominator := denominator_of x x_next x_next_next in
  if ltb (abs denominator) tol then
    let* _ := emit (PrintMsg "Denominator too small. Method might not converge.") in
    ret (Return None)
  else
    let* sq := pow2 (sub x_next x) in
    let* q := div sq denominator in
    let x_new := sub x q in
    if ltb (abs (sub x_new x)) tol then ret (Return (Some x_new))
    else ret (Continue x_new).

Definition steffensen_with (pow2 : num -> Py num num)
    (div : num -> num -> Py num num) (f : num -> num) (x0 tol : num)
    (max_iter : Z) : Py num (option num) :=
  let x := x0 in
  for_range (Z.to_nat max_iter) 0 (steffensen_body_with pow2 div f tol) x
    (raise ConvergenceError).

(** [x - ((x_next - x) ** 2) / denominator] (line 186) for the square
    [pow2]. *)
Definition steffensen_step_with (pow2 : num -> num) (f : num -> num) (x : num)
    : num :=
  sub x (truediv (pow2 (sub (f x) x)) (denominator_of x (f x) (f (f x)))).

End Dispatch.

(** An absolute value is below no number that is zero or less:
    [abs(x) < y] is false for [y <= 0], also when [x] is a NaN. *)
Class AbsLaws (num : Type) `{Number num} : Prop := {
  abs_not_below : forall x y, leb y zero = true -> ltb (abs x) y = false;
}.

Ltac py_unfold :=
  unfold allclose, np_allclose, py_div, py_pow2;
  unfold bind, ret, raise, emit, call_f, call_fp, call_fvec, add_row,
    print_resultados, clear_rows.

(** Case analysis on every test a round makes. *)
Ltac py_cases :=
  repeat (cbn; match goal with
  | |- context [match ?b with Some _ => _ | None => _ end] => destruct b
  | |- context [if ?b then _ else _] => destruct b
  end); cbn.

(** * Properties *)

Section Observations.
Context {num : Type}.

Lemma iterations_app (w1 w2 : list (event num)) :
  iterations (w1 ++ w2) = (iterations w1 + iterations w2)%nat.
Proof. unfold iterations. now rewrite List.filter_app, length_app. Qed.

Lemma user_calls_app (w1 w2 : list (event num)) :
  user_calls (w1 ++ w2) = (user_calls w1 + user_calls w2)%nat.
Proof. unfold user_calls. now rewrite List.filter_app, length_app. Qed.

End Observations.

(** ** The loop *)

Section Loop.
Context {num : Type} `{Number num} {S A : Type}.
Implicit Types (body : Z -> S -> Py num (flow S A)) (after : Py num A).

(** One more round, spelled out. *)
Lemma for_range_S n i body s after t :
  for_range (Datatypes.S n) i body s after t =
  match body i s t with
  | (Returned (Continue s'), t', w) =>
      let r := for_range n (i + 1) body s' after t' in
      (outcome r, final_table r, Iter i :: w ++ events r)
  | (Returned (Return a), t', w) => (Returned a, t', Iter i :: w)
  | (Raised e, t', w) => (Raised e, t', Iter i :: w)
  end.
Proof.
  cbn [for_range]. unfold bind, emit.
  destruct (body i s t) as [[[[s'|a]|e] t'] w]; cbn.
  - destruct (for_range n (i + 1) body s' after t') as [[r t''] w']. reflexivity.
  - now rewrite app_nil_r.
  - reflexivity.
Qed.

Lemma for_range_rounds k : forall n i body s after t s' t' w,
  rounds k i body s t = Some (s', t', w) ->
  for_range (k + n) i body s after t =
  let r := for_range n (i + Z.of_nat k) body s' after t' in
  (outcome r, final_table r, w ++ events r).
Proof.
  induction k as [|k IH]; intros n i body s after t s' t' w Hk.
  - cbn in Hk. injection Hk as <- <- <-. cbn [Nat.add Z.of_nat].
    rewrite Z.add_0_r.
    now destruct (for_range n i body s after t) as [[r t''] w'].
  - cbn [rounds] in Hk. cbn [Nat.add]. rewrite for_range_S.
    destruct (body i s t) as [[[[s1|a]|e] t1] w1]; try discriminate.
    destruct (rounds k (i + 1) body s1 t1) as [[[s2 t2] w2]|] eqn:Hr;
      try discriminate.
    injection Hk as <- <- <-.
    rewrite (IH n _ _ _ after _ _ _ _ Hr). cbn.
    replace (i + 1 + Z.of_nat k) with (i + Z.pos (Pos.of_succ_nat k)) by lia.
    now rewrite <- app_assoc.
Qed.

(** Counting in a log.  For a count [m] that adds up over concatenation,
    gives [d] to the start of a loop body and at most [c] to the events of
    one round, a loop of [n] rounds has count at most [(c + d) * n]. *)
Lemma for_range_count (m : list (event num) -> nat) c d n :
  forall i body s after t,
  (forall w1 w2, m (w1 ++ w2) = (m w1 + m w2)%nat) ->
  (forall i, m [Iter i] = d) ->
  (forall i s t, (m (events (body i s t)) <= c)%nat) ->
  (forall t, m (events (after t)) = 0%nat) ->
  (m (events (for_range n i body s after t)) <= (c + d) * n)%nat.
Proof.
  induction n as [|n IH]; intros i body s after t Happ Hd Hb Ha.
  - cbn. rewrite Ha. lia.
  - rewrite for_range_S. pose proof (Hb i s t) as Hb1.
    pose proof (Hd i) as Hd1.
    destruct (body i s t) as [[[[s'|a]|e] t'] w]; unfold events in *; cbn in *.
    + specialize (IH (i + 1) body s' after t' Happ Hd Hb Ha).
      change (Iter i :: w ++ ?l) with ([Iter i] ++ w ++ l).
      rewrite !Happ. nia.
    + change (Iter i :: w) with ([Iter i] ++ w). rewrite Happ. nia.
    + change (Iter i :: w) with ([Iter i] ++ w). rewrite Happ. nia.
Qed.

(** The loop starts at most [n] bodies. *)
Lemma for_range_iterations n i body s after t :
  (forall i s t, iterations (events (body i s t)) = 0%nat) ->
  (forall t, iterations (events (after t)) = 0%nat) ->
  (iterations (events (for_range n i body s after t)) <= n)%nat.
Proof.
  intros Hb Ha.
  pose proof (for_range_count iterations 0 1 n i body s after t
                iterations_app (fun _ => eq_refl)) as Hcount.
  cbn in Hcount. rewrite Nat.add_0_r in Hcount. apply Hcount; [|exact Ha].
  intros i' s' t'. now rewrite Hb.
Qed.

(** With at most [c] calls a round, the loop makes at most [c * n]. *)
Lemma for_range_user_calls c n i body s after t :
  (forall i s t, (user_calls (events (body i s t)) <= c)%nat) ->
  (forall t, user_calls (events (after t)) = 0%nat) ->
  (user_calls (events (for_range n i body s after t)) <= c * n)%nat.
Proof.
  intros Hb Ha.
  pose proof (for_range_count user_calls c 0 n i body s after t
                user_calls_app (fun _ => eq_refl) Hb Ha) as Hcount.
  now rewrite Nat.add_0_r in Hcount.
Qed.

End Loop.

(** ** Facts about single rounds *)

Section Rounds.
Context {num : Type} `{Number num}.
Implicit Types (f fp : num -> num) (fv : list num -> list num).
Implicit Types (x p tol : num) (t : table num) (i : Z).

Lemma for_range_blind {S A} n : forall i (body : Z -> S -> Py num (flow S A)) s after,
  (forall i s, table_blind (body i s)) -> table_blind after ->
  table_blind (for_range n i body s after).
Proof.
  induction n as [|n IH]; intros i body s after Hb Ha.
  - exact Ha.
  - destruct (Hb i s) as (r & w & Hr).
    destruct r as [[s'|a]|e].
    + destruct (IH (i + 1) body s' after Hb Ha) as (r' & w' & Hr').
      exists r', (Iter i :: w ++ w'). intros t.
      rewrite for_range_S, Hr, Hr'. reflexivity.
    + exists (Returned a), (Iter i :: w). intros t.
      now rewrite for_range_S, Hr.
    + exists (Raised e), (Iter i :: w). intros t.
      now rewrite for_range_S, Hr.
Qed.

Lemma fixed_point_body_blind fv tol i (x : list num) :
  table_blind (fixed_point_body fv tol i x).
Proof.
  unfold table_blind, fixed_point_body. py_unfold.
  py_cases; eexists _, _; intros t; reflexivity.
Qed.

Lemma steffensen_body_blind f tol i x : table_blind (steffensen_body f tol i x).
Proof.
  unfold table_blind, steffensen_body. py_unfold.
  py_cases; eexists _, _; intros t; reflexivity.
Qed.

Lemma raise_blind {B} e : table_blind (@raise num B e).
Proof. now exists (Raised e), []. Qed.

(** No round starts a loop body of its own, and each calls the caller's
    functions a bounded number of times. *)
Lemma fixed_point_body_events fv tol i (x : list num) t :
  iterations (events (fixed_point_body fv tol i x t)) = 0%nat /\
  (user_calls (events (fixed_point_body fv tol i x t)) <= 1)%nat.
Proof.
  unfold fixed_point_body. py_unfold. py_cases; cbn; split; lia.
Qed.

Lemma Newton_body_events f fp tol i p t :
  iterations (events (Newton_body f fp tol i p t)) = 0%nat /\
  (user_calls (events (Newton_body f fp tol i p t)) <= 3)%nat.
Proof.
  unfold Newton_body. py_unfold. py_cases; cbn; split; lia.
Qed.

Lemma Secante_body_events f tol i (s : num * num * num * num) t :
  iterations (events (Secante_body f tol i s t)) = 0%nat /\
  (user_calls (events (Secante_body f tol i s t)) <= 2)%nat.
Proof.
  destruct s as [[[p0 q0] p1] q1].
  unfold Secante_body. py_unfold. py_cases; cbn; split; lia.
Qed.

Lemma steffensen_body_events f tol i x t :
  iterations (events (steffensen_body f tol i x t)) = 0%nat /\
  (user_calls (events (steffensen_body f tol i x t)) <= 2)%nat.
Proof.
  unfold steffensen_body. py_unfold. py_cases; cbn; split; lia.
Qed.

End Rounds.

(** ** The iteration budget *)

Section Budget.
Context {num : Type} `{Number num}.
Implicit Types (f fp : num -> num) (fv : list num -> list num).
Implicit Types (x p tol : num) (xs : list num) (t : table num).

(** C5, as the code has it.  With [max_iter = 0] fixed-point iteration,
    Newton-Raphson and Steffensen raise the convergence failure without
    starting a loop body and without calling a caller-supplied function
    (their log is empty).  The secant method raises the same failure, also
    without starting a loop body, but only after it has called [f] exactly
    twice, at [p_0] and then at [p_1], to seed the table with two rows. *)
Theorem zero_budget_fails_before_the_loop fv f fp xs p_0 p_1 tol t :
  fixed_point_iteration fv xs tol 0 t = (Raised ConvergenceError, t, []) /\
  Newton_Raphson f fp p_0 tol 0 t = (Raised ConvergenceError, [], []) /\
  steffensen f p_0 tol 0 t = (Raised ConvergenceError, t, []) /\
  Secante f p_0 p_1 tol 0 t =
    (Raised ConvergenceError,
     [(0, p_0, f p_0); (1, p_1, f p_1)],
     [CallF p_0; CallF p_1]).
Proof. repeat split. Qed.

(** The same for a negative budget: [range] of a negative number is empty. *)
Lemma nonpositive_budget fv f fp xs p_0 tol (max_iter : Z) t :
  max_iter <= 0 ->
  events (fixed_point_iteration fv xs tol max_iter t) = [] /\
  events (Newton_Raphson f fp p_0 tol max_iter t) = [] /\
  events (steffensen f p_0 tol max_iter t) = [].
Proof.
  intros Hle. unfold fixed_point_iteration, Newton_Raphson, steffensen.
  replace (Z.to_nat max_iter) with 0%nat by lia. repeat split.
Qed.

Lemma ended_total {B} (r : result B * table num * list (event num)) : ended r.
Proof. destruct r as [[[v|e] t'] w]; [left | right]; eauto. Qed.

(** C8.  Every call starts at most [max_iter] loop bodies, whatever the
    inputs, and so makes a bounded number of calls of the caller-supplied
    functions: at most [max_iter] for fixed-point iteration, [3 * max_iter]
    for Newton-Raphson, [2 + 2 * max_iter] for the secant method and
    [2 * max_iter] for Steffensen.  Each solver is a total function of its
    inputs: every call ends, by returning a value or by raising. *)
Theorem iterations_bounded_by_max_iter fv f fp xs p_0 p_1 tol (max_iter : Z) t :
  let n := Z.to_nat max_iter in
  let r1 := fixed_point_iteration fv xs tol max_iter t in
  let r2 := Newton_Raphson f fp p_0 tol max_iter t in
  let r3 := Secante f p_0 p_1 tol max_iter t in
  let r4 := steffensen f p_0 tol max_iter t in
  (ended r1 /\ (iterations (events r1) <= n)%nat /\
   (user_calls (events r1) <= n)%nat) /\
  (ended r2 /\ (iterations (events r2) <= n)%nat /\
   (user_calls (events r2) <= 3 * n)%nat) /\
  (ended r3 /\ (iterations (events r3) <= n)%nat /\
   (user_calls (events r3) <= 2 + 2 * n)%nat) /\
  (ended r4 /\ (iterations (events r4) <= n)%nat /\
   (user_calls (events r4) <= 2 * n)%nat).
Proof.
  intros n r1 r2 r3 r4. subst r1 r2 r3 r4.
  unfold fixed_point_iteration, Newton_Raphson, Secante, steffensen.
  fold n. repeat split; try apply ended_total.
  - apply for_range_iterations; [intros; apply fixed_point_body_events | reflexivity].
  - replace n with (1 * n)%nat at 2 by lia.
    apply for_range_user_calls; [intros; apply fixed_point_body_events | reflexivity].
  - unfold bind at 1, clear_rows.
    pose proof (for_range_iterations n 0 (Newton_body f fp tol) p_0
      (raise ConvergenceError) []
      (fun i s t => proj1 (Newton_body_events f fp tol i s t))
      (fun _ => eq_refl)) as Hn.
    destruct (for_range n 0 _ p_0 _ []) as [[r t'] w]. exact Hn.
  - unfold bind at 1, clear_rows.
    pose proof (for_range_user_calls 3 n 0 (Newton_body f fp tol) p_0
      (raise ConvergenceError) []
      (fun i s t => proj2 (Newton_body_events f fp tol i s t))
      (fun _ => eq_refl)) as Hn.
    destruct (for_range n 0 _ p_0 _ []) as [[r t'] w]. exact Hn.
  - py_unfold. cbn.
    pose proof (for_range_iterations n 0 (Secante_body f tol)
      (p_0, f p_0, p_1, f p_1) (raise ConvergenceError)
      [(0, p_0, f p_0); (1, p_1, f p_1)]
      (fun i s t => proj1 (Secante_body_events f tol i s t))
      (fun _ => eq_refl)) as Hn.
    destruct (for_range n 0 _ _ _ _) as [[r t'] w]. exact Hn.
  - py_unfold. cbn.
    pose proof (for_range_user_calls 2 n 0 (Secante_body f tol)
      (p_0, f p_0, p_1, f p_1) (raise ConvergenceError)
      [(0, p_0, f p_0); (1, p_1, f p_1)]
      (fun i s t => proj2 (Secante_body_events f tol i s t))
      (fun _ => eq_refl)) as Hn.
    destruct (for_range n 0 _ _ _ _) as [[r t'] w].
    unfold events in *. cbn in *. unfold user_calls in *. cbn. lia.
  - apply for_range_iterations; [intros; apply steffensen_body_events | reflexivity].
  - apply for_range_user_calls; [intros; apply steffensen_body_events | reflexivity].
Qed.

(** C7.  A call does not see what earlier calls left in [resultados]:
    started from any two tables, Newton-Raphson and the secant method return
    the same value (or raise the same exception), leave the same rows in the
    table and log the same events; fixed-point iteration and Steffensen
    return the same value and log the same events, and leave the table as
    they found it. *)
Theorem solvers_ignore_earlier_state fv f fp xs p_0 p_1 tol (max_iter : Z)
    (t1 t2 : table num) :
  Newton_Raphson f fp p_0 tol max_iter t1 = Newton_Raphson f fp p_0 tol max_iter t2 /\
  Secante f p_0 p_1 tol max_iter t1 = Secante f p_0 p_1 tol max_iter t2 /\
  (exists r w,
     fixed_point_iteration fv xs tol max_iter t1 = (r, t1, w) /\
     fixed_point_iteration fv xs tol max_iter t2 = (r, t2, w)) /\
  (exists r w,
     steffensen f p_0 tol max_iter t1 = (r, t1, w) /\
     steffensen f p_0 tol max_iter t2 = (r, t2, w)).
Proof.
  repeat split.
  - destruct (for_range_blind (Z.to_nat max_iter) 0 (fixed_point_body fv tol) xs
      (raise ConvergenceError) (fixed_point_body_blind fv tol) (raise_blind _))
      as (r & w & Hr).
    exists r, w. split; apply Hr.
  - destruct (for_range_blind (Z.to_nat max_iter) 0 (steffensen_body f tol) p_0
      (raise ConvergenceError) (steffensen_body_blind f tol) (raise_blind _))
      as (r & w & Hr).
    exists r, w. split; apply Hr.
Qed.

End Budget.

(** ** Fixed-point iteration *)

Section FixedPoint.
Context {num : Type} `{Number num}.
Implicit Types (fv : list num -> list num) (tol : num) (xs : list num).

(** One round: [f] is called once, and the round returns, goes on or
    raises as [np.allclose] says. *)
Lemma fixed_point_body_spec fv tol i xs t :
  fixed_point_body fv tol i xs t =
  match np_allclose (fv xs) xs tol with
  | Returned true => (Returned (Return (fv xs)), t, [CallFvec xs])
  | Returned false => (Returned (Continue (fv xs)), t, [CallFvec xs])
  | Raised e => (Raised e, t, [CallFvec xs])
  end.
Proof.
  unfold fixed_point_body, bind, call_fvec, allclose.
  now destruct (np_allclose (fv xs) xs tol) as [[|]|e].
Qed.

(** The call returns in the first round in which [np.allclose] holds
    between the new iterate and the old one. *)
Lemma fixed_point_loop_first_close fv tol k : forall n i xs t,
  (k < n)%nat ->
  (forall j, (j < k)%nat ->
     np_allclose (fv (Nat.iter j fv xs)) (Nat.iter j fv xs) tol = Returned false) ->
  np_allclose (fv (Nat.iter k fv xs)) (Nat.iter k fv xs) tol = Returned true ->
  let r := for_range n i (fixed_point_body fv tol) xs (raise ConvergenceError) t in
  outcome r = Returned (fv (Nat.iter k fv xs)) /\
  iterations (events r) = Datatypes.S k.
Proof.
  induction k as [|k IH]; intros n i xs t Hk Hnot Hclose;
    (destruct n as [|n]; [lia|]); cbn zeta; rewrite for_range_S, fixed_point_body_spec.
  - cbn in Hclose. rewrite Hclose. now split.
  - pose proof (Hnot 0%nat ltac:(lia)) as H0. cbn in H0. rewrite H0.
    destruct (IH n (i + 1) (fv xs) t ltac:(lia)) as [Hout Hit].
    + intros j Hj. rewrite <- !Nat.iter_succ_r. apply Hnot. lia.
    + now rewrite <- !Nat.iter_succ_r.
    + cbn zeta in Hout, Hit. rewrite <- !Nat.iter_succ_r in Hout.
      destruct (for_range n (i + 1) _ (fv xs) _ t) as [[r' t'] w'].
      cbn in *. split; [exact Hout|].
      unfold iterations in *. cbn. now rewrite Hit.
Qed.

(** C10.  A value returned by fixed-point iteration is the iterate just
    computed: it is [f x] for the iterate [x] of some round within the
    budget, and the closeness test of the code between the two passed.  In
    particular it lies in the image of [f]. *)
Theorem fixed_point_returns_fresh_iterate fv xs tol (max_iter : Z) t r :
  outcome (fixed_point_iteration fv xs tol max_iter t) = Returned r ->
  exists k, (k < Z.to_nat max_iter)%nat /\
    r = fv (Nat.iter k fv xs) /\
    np_allclose r (Nat.iter k fv xs) tol = Returned true.
Proof.
  unfold fixed_point_iteration. generalize 0 as i.
  generalize (Z.to_nat max_iter) as n. intros n. revert xs.
  induction n as [|n IH]; intros xs i Hr; [discriminate|].
  rewrite for_range_S, fixed_point_body_spec in Hr.
  destruct (np_allclose (fv xs) xs tol) as [[|]|e] eqn:Hc; cbn in Hr.
  - injection Hr as <-. exists 0%nat. repeat split; [lia | exact Hc].
  - destruct (IH _ _ Hr) as (k & Hk & -> & Hclose).
    exists (Datatypes.S k). rewrite Nat.iter_succ_r.
    repeat split; [lia | exact Hclose].
  - discriminate.
Qed.

End FixedPoint.

Lemma fixed_point_returns_fresh_iterate_witness :
  outcome (fixed_point_iteration half_plus_one [1%float] tol_default 1000 [])
    = Returned [1.9999847412109375%float] /\
  exists k, (k < Z.to_nat 1000)%nat /\
    [1.9999847412109375%float] = half_plus_one (Nat.iter k half_plus_one [1%float]) /\
    np_allclose [1.9999847412109375%float] (Nat.iter k half_plus_one [1%float])
      tol_default = Returned true.
Proof.
  split; [vm_compute; reflexivity|].
  apply (fixed_point_returns_fresh_iterate half_plus_one [1%float] tol_default 1000 []).
  vm_compute. reflexivity.
Defined.

(** C1, at an input where the code departs from it.  For [f = lambda x: x + 1],
    [x0 = [1000000.0]] and [tol = 1e-6] the first round computes
    [x_new = [1000001.0]]; the difference from [x] is [1.0], a million times
    the tolerance, and yet the call returns [x_new] in that round: the default
    relative tolerance [1e-05] of [np.allclose] admits [1e-6 + 1e-05 * 1e6]. *)
Theorem fixed_point_returns_outside_tolerance :
  fixed_point_iteration plus_one [1000000%float] tol_default 1000 []
    = (Returned [1000001%float], [], [Iter 0; CallFvec [1000000%float]]) /\
  within_tolerance [1000001%float] [1000000%float] tol_default = false /\
  (PrimFloat.abs (1000001 - 1000000) <=? tol_default)%float = false.
Proof. vm_compute. repeat split. Qed.

(** ** Degenerate denominators *)

Section Degenerate.
Context {num : Type} `{Number num}.
Implicit Types (f fp : num -> num) (x p tol : num) (t : table num).

(** A loop that has made [k] rounds within its budget has the next one to
    make. *)
Lemma for_range_after_rounds {S A} (body : Z -> S -> Py num (flow S A))
    after n k s t s' t' w :
  (k < n)%nat ->
  rounds k 0 body s t = Some (s', t', w) ->
  for_range n 0 body s after t =
  let r := for_range (Datatypes.S (n - k - 1)) (Z.of_nat k) body s' after t' in
  (outcome r, final_table r, w ++ events r).
Proof.
  intros Hk Hr.
  replace n with (k + Datatypes.S (n - k - 1))%nat at 1 by lia.
  now rewrite (for_range_rounds k _ _ _ _ after _ _ _ _ Hr).
Qed.

(** C3, as the code has it.  When the loop of [steffensen] reaches, within
    the budget, an iterate [x] whose Aitken denominator
    [f(f(x)) - 2 * f(x) + x] is smaller than [tol] in absolute value, the
    call ends in that round: it prints the warning and returns [None].  It
    raises nothing. *)
Theorem steffensen_small_denominator_returns_None
    f x0 tol (max_iter : Z) t (k : nat) x t' w :
  (k < Z.to_nat max_iter)%nat ->
  rounds k 0 (steffensen_body f tol) x0 t = Some (x, t', w) ->
  ltb (abs (denominator_of x (f x) (f (f x)))) tol = true ->
  steffensen f x0 tol max_iter t =
    (Returned None, t',
     w ++ [Iter (Z.of_nat k); CallF x; CallF (f x);
           PrintMsg "Denominator too small. Method might not converge."]).
Proof.
  intros Hk Hr Hd. unfold steffensen.
  rewrite (for_range_after_rounds _ _ _ _ _ _ _ _ _ Hk Hr).
  rewrite for_range_S. unfold steffensen_body at 1. py_unfold.
  now rewrite Hd.
Qed.

(** C4, as the code has it.  On Python floats ([p_0] and the values of [f]
    and [fp] are of Python's own [float], so that line 84 divides with
    [py_div]): when the loop of [Newton_Raphson] reaches, within the
    budget, an iterate [p] at which [fp] is exactly zero, the call fails in
    that round with [ZeroDivisionError], the exception that Python's
    division [f(p_0) / fp(p_0)] raises.  It is no exception of the code's
    own for a singular derivative: line 88 raises the same one at a root
    [0.0].  [f] and [fp] have been called at [p], no quotient is formed, no
    row is added and nothing is returned, so no infinity or NaN is passed
    on.  In particular, with an [fp] that is zero everywhere and a budget
    of at least one round, the call fails so in its first round. *)
Theorem Newton_zero_derivative_raises f fp p_0 tol (N_0 : Z) t :
  (forall (k : nat) p t' w,
     (k < Z.to_nat N_0)%nat ->
     rounds k 0 (Newton_body f fp tol) p_0 [] = Some (p, t', w) ->
     eqb (fp p) zero = true ->
     Newton_Raphson f fp p_0 tol N_0 t =
       (Raised ZeroDivisionError, t',
        w ++ [Iter (Z.of_nat k); CallF p; CallFp p])) /\
  ((forall x, eqb (fp x) zero = true) ->
   0 < N_0 ->
   Newton_Raphson f fp p_0 tol N_0 t =
     (Raised ZeroDivisionError, [], [Iter 0; CallF p_0; CallFp p_0])).
Proof.
  assert (forall (k : nat) p t' w,
     (k < Z.to_nat N_0)%nat ->
     rounds k 0 (Newton_body f fp tol) p_0 [] = Some (p, t', w) ->
     eqb (fp p) zero = true ->
     Newton_Raphson f fp p_0 tol N_0 t =
       (Raised ZeroDivisionError, t',
        w ++ [Iter (Z.of_nat k); CallF p; CallFp p])) as Hgen.
  { intros k p t' w Hk Hr Hz. unfold Newton_Raphson.
    unfold bind at 1, clear_rows.
    rewrite (for_range_after_rounds _ _ _ _ _ _ _ _ _ Hk Hr).
    rewrite for_range_S. unfold Newton_body at 1. py_unfold.
    now rewrite Hz. }
  split; [exact Hgen|].
  intros Hz Hpos. apply (Hgen 0%nat p_0 [] []); [lia | reflexivity | apply Hz].
Qed.

End Degenerate.

Lemma steffensen_small_denominator_returns_None_witness :
  steffensen half_plus_one_scalar 1%float tol_default 100 [] =
    (Returned None, [],
     [Iter 0; CallF 1%float; CallF 1.5%float] ++
     [Iter 1; CallF 2%float; CallF (half_plus_one_scalar 2);
      PrintMsg "Denominator too small. Method might not converge."]).
Proof.
  apply (steffensen_small_denominator_returns_None
           half_plus_one_scalar 1%float tol_default 100 [] 1 2%float).
  - vm_compute. lia.
  - vm_compute. reflexivity.
  - vm_compute. reflexivity.
Defined.

(** At [f = lambda x: x] every iterate has Aitken denominator zero, and the
    call returns [None]: a value, not an exception. *)
Lemma steffensen_small_denominator_is_no_error :
  ltb (abs (denominator_of 3%float (identity 3) (identity (identity 3))))
      tol_default = true /\
  steffensen identity 3%float tol_default 100 [] =
    (Returned None, [],
     [Iter 0; CallF 3%float; CallF 3%float;
      PrintMsg "Denominator too small. Method might not converge."]) /\
  ~ (exists e, outcome (steffensen identity 3%float tol_default 100 []) = Raised e).
Proof.
  split; [vm_compute; reflexivity|].
  split; [vm_compute; reflexivity|].
  intros [e He]. vm_compute in He. discriminate.
Qed.

Lemma Newton_zero_derivative_raises_witness :
  Newton_Raphson parabola_up parabola' 1%float tol_default 1000 [] =
    (Raised ZeroDivisionError, [(0, 0%float, 1%float)],
     [Iter 0; CallF 1%float; CallFp 1%float; CallF 0%float] ++
     [Iter 1; CallF 0%float; CallFp 0%float]) /\
  Newton_Raphson parabola null 3%float tol_default 1000 [] =
    (Raised ZeroDivisionError, [], [Iter 0; CallF 3%float; CallFp 3%float]).
Proof.
  split.
  - apply (proj1 (Newton_zero_derivative_raises
             parabola_up parabola' 1%float tol_default 1000 []) 1%nat 0%float).
    + vm_compute. lia.
    + vm_compute. reflexivity.
    + vm_compute. reflexivity.
  - apply (proj2 (Newton_zero_derivative_raises
             parabola null 3%float tol_default 1000 [])).
    + intros x. vm_compute. reflexivity.
    + lia.
Defined.

(** The solvers above are those of [Dispatch] at Python's operators. *)
Lemma Newton_Raphson_with_py_div {num} `{Number num} (f fp : num -> num)
    p_0 tol (N_0 : Z) :
  Newton_Raphson_with py_div f fp p_0 tol N_0 = Newton_Raphson f fp p_0 tol N_0.
Proof. reflexivity. Qed.

Lemma Secante_with_py_div {num} `{Number num} (f : num -> num)
    p_0 p_1 tol (N_0 : Z) :
  Secante_with py_div f p_0 p_1 tol N_0 = Secante f p_0 p_1 tol N_0.
Proof. reflexivity. Qed.

Lemma steffensen_with_py {num} `{Number num} (f : num -> num)
    x0 tol (max_iter : Z) :
  steffensen_with (py_pow2_with (fun d => mul d d)) py_div f x0 tol max_iter =
  steffensen f x0 tol max_iter.
Proof. reflexivity. Qed.

(** A zero derivative without an exception, and the exception without a
    zero derivative.

    [Newton_Raphson(lambda x: x * x - 4, lambda x: np.float64(0.0), 3.0,
    N_0=3)]: the derivative is a [numpy.float64], so the division of line
    84 is numpy's and raises nothing.  [5.0 / 0.0] is [inf], the iterate
    becomes [-inf] and stays there, every round adds the row
    [(i, -inf, inf)], no step is below [TOL], and after its three rounds the
    call fails with the convergence [ValueError].

    [Newton_Raphson(lambda x: x, lambda x: 1.0, 0.0)], on Python floats:
    the derivative is [1.0] everywhere, the first round finds [p = 0.0]
    with a step of [0.0], prints the table, and line 88 raises
    [ZeroDivisionError] in [abs(p - p_0) / abs(p)]. *)
Lemma Newton_zero_derivative_passes_infinity :
  (forall x, eqb (null x) zero = true) /\
  Newton_Raphson_with np_div parabola null 3%float tol_default 3 [] =
    (Raised ConvergenceError,
     [(0, neg_infinity, infinity); (1, neg_infinity, infinity);
      (2, neg_infinity, infinity)],
     [Iter 0; CallF 3%float; CallFp 3%float; CallF neg_infinity;
      Iter 1; CallF neg_infinity; CallFp neg_infinity; CallF neg_infinity;
      Iter 2; CallF neg_infinity; CallFp neg_infinity; CallF neg_infinity]) /\
  (forall x, eqb (const_one x) zero = false) /\
  Newton_Raphson identity const_one 0%float tol_default 1000 [] =
    (Raised ZeroDivisionError, [(0, 0%float, 0%float)],
     [Iter 0; CallF 0%float; CallFp 0%float; CallF 0%float;
      PrintTable [(0, 0%float, 0%float)]]).
Proof.
  split; [intros x; vm_compute; reflexivity|].
  split; [vm_compute; reflexivity|].
  split; [intros x; vm_compute; reflexivity|].
  vm_compute. reflexivity.
Qed.

(** With a budget of zero the secant method still calls [f] twice. *)
Lemma Secante_zero_budget_calls_f :
  events (Secante parabola 3%float 4%float tol_default 0 []) =
    [CallF 3%float; CallF 4%float] /\
  user_calls (events (Secante parabola 3%float 4%float tol_default 0 [])) = 2%nat.
Proof. vm_compute. split; reflexivity. Qed.

(** ** The secant method, round by round *)

Section SecantRound.
Context {num : Type} `{Number num}.
Implicit Types (f : num -> num) (tol : num) (t : table num) (i : Z).

(** One round from [(p_0, q_0)], [(p_1, q_1)] with [q_1 - q_0] not zero:
    the new point is [p = p_1 - q_1 * (p_1 - p_0) / (q_1 - q_0)], the row
    [(i, p, f p)] is added, and then
    - if [|p - p_1| < tol] fails, the pairs shift and the loop goes on;
    - if it holds and [p] is not zero, the table and the error percentage
      are printed and [p] is returned;
    - if it holds and [p] is zero, the error percentage divides by [|p|]
      and the round raises [ZeroDivisionError]. *)
Lemma Secante_body_spec f tol i p_0 q_0 p_1 q_1 t :
  eqb (sub q_1 q_0) zero = false ->
  let p := sub p_1 (truediv (mul q_1 (sub p_1 p_0)) (sub q_1 q_0)) in
  let t' := t ++ [(i, p, f p)] in
  Secante_body f tol i (p_0, q_0, p_1, q_1) t =
  if ltb (abs (sub p p_1)) tol then
    if eqb (abs p) zero then
      (Raised ZeroDivisionError, t', [CallF p; PrintTable t'])
    else
      (Returned (Return p), t',
       [CallF p; PrintTable t';
        PrintER (mul (truediv (abs (sub p p_1)) (abs p)) hundred)])
  else
    (Returned (Continue (p_1, q_1, p, f p)), t', [CallF p; CallF p]).
Proof.
  intros Hd p t'. unfold Secante_body. py_unfold. rewrite Hd. cbn.
  fold p. fold t'.
  destruct (ltb (abs (sub p p_1)) tol); cbn; [|reflexivity].
  destruct (eqb (abs p) zero); reflexivity.
Qed.

End SecantRound.

(** C6, at an input where the code departs from it.  For [f = lambda x: x]
    with [p_0 = 1.0], [p_1 = 2.0] (so [p_0 <> p_1] and [f(p_0) <> f(p_1)]) the
    first round finds [p = 0.0] and goes on; the second finds [p = 0.0]
    again, so [|p - p_1| = 0 < tol], and instead of returning [p] the call
    raises [ZeroDivisionError]: the error percentage printed before
    [return p] divides by [abs(p)]. *)
Theorem Secante_raises_on_reaching_zero :
  (PrimFloat.eqb 1 2 = false /\ PrimFloat.eqb (identity 1) (identity 2) = false) /\
  rounds 1 0 (Secante_body identity tol_default)
    (1%float, identity 1, 2%float, identity 2)
    [(0, 1%float, 1%float); (1, 2%float, 2%float)] =
    Some ((2%float, 2%float, 0%float, 0%float),
          [(0, 1%float, 1%float); (1, 2%float, 2%float); (0, 0%float, 0%float)],
          [Iter 0; CallF 0%float; CallF 0%float]) /\
  (let p := sub 0%float (truediv (mul 0%float (sub 0%float 2%float))
                                 (sub 0%float 2%float)) in
   p = 0%float /\ ltb (abs (sub p 0%float)) tol_default = true) /\
  Secante identity 1%float 2%float tol_default 1000 [] =
    (Raised ZeroDivisionError,
     [(0, 1%float, 1%float); (1, 2%float, 2%float);
      (0, 0%float, 0%float); (1, 0%float, 0%float)],
     [CallF 1%float; CallF 2%float; Iter 0; CallF 0%float; CallF 0%float;
      Iter 1; CallF 0%float;
      PrintTable [(0, 1%float, 1%float); (1, 2%float, 2%float);
                  (0, 0%float, 0%float); (1, 0%float, 0%float)]]).
Proof. vm_compute. repeat split. Qed.

(** ** binary64 obeys the laws of zero *)

Section Binary64.
Local Open Scope float_scope.

Lemma Prim2SF_zero : Prim2SF 0 = S754_zero false.
Proof. reflexivity. Qed.

Lemma Prim2SF_infinity : Prim2SF infinity = S754_infinity false.
Proof. reflexivity. Qed.

(** [x == 0.0] holds of the two zeros and of nothing else. *)
Lemma float_eqb_zero x :
  (x =? 0) = true <-> exists s, Prim2SF x = S754_zero s.
Proof.
  rewrite FloatAxioms.eqb_spec, Prim2SF_zero. split.
  - destruct (Prim2SF x) as [s|s| |s m e]; cbn; try discriminate; eauto.
    all: destruct s; discriminate.
  - intros [s ->]. reflexivity.
Qed.

Lemma SFeqb_finite_refl s m e :
  SFeqb (S754_finite s m e) (S754_finite s m e) = true.
Proof.
  unfold SFeqb, SFcompare. rewrite Z.compare_refl, Pos.compare_cont_refl.
  now destruct s.
Qed.

Lemma float_is_finite x : PrimFloat.is_finite x = true ->
  (exists s, Prim2SF x = S754_zero s) \/
  (exists s m e, Prim2SF x = S754_finite s m e).
Proof.
  unfold PrimFloat.is_finite, is_nan, is_infinity.
  rewrite !FloatAxioms.eqb_spec, FloatAxioms.abs_spec, Prim2SF_infinity.
  destruct (Prim2SF x) as [s|s| |s m e]; cbn; try discriminate; eauto.
  destruct s; discriminate.
Qed.

Lemma float_abs_of_zero z : (z =? 0) = true -> PrimFloat.abs z = 0.
Proof.
  intros [s Hz]%float_eqb_zero. apply Prim2SF_inj.
  now rewrite FloatAxioms.abs_spec, Hz.
Qed.

Lemma float_abs_nonzero x : (x =? 0) = false -> (PrimFloat.abs x =? 0) = false.
Proof.
  rewrite !FloatAxioms.eqb_spec, FloatAxioms.abs_spec, Prim2SF_zero.
  destruct (Prim2SF x) as [s|s| |s m e]; cbn; try discriminate; auto.
Qed.

Lemma float_sub_diag x : PrimFloat.is_finite x = true -> (x - x =? 0) = true.
Proof.
  intros Hf. apply float_eqb_zero. rewrite sub_spec. unfold SF64sub.
  destruct (float_is_finite x Hf) as [[s ->]|(s & m & e & ->)].
  - exists false. now destruct s.
  - exists false. unfold SFsub. now rewrite Z.sub_diag.
Qed.

Lemma float_sub_zero_r x z : (z =? 0) = true -> (x =? 0) = false -> x - z = x.
Proof.
  intros [s Hz]%float_eqb_zero Hx. apply Prim2SF_inj.
  rewrite sub_spec, Hz. rewrite FloatAxioms.eqb_spec, Prim2SF_zero in Hx.
  destruct (Prim2SF x) as [sx|sx| |sx m e]; cbn in *;
    try discriminate; reflexivity.
Qed.

Lemma float_div_zero_l z y :
  (z =? 0) = true -> (y =? 0) = false -> (y =? y) = true -> (z / y =? 0) = true.
Proof.
  intros [s Hz]%float_eqb_zero Hy Hyn. apply float_eqb_zero.
  rewrite div_spec, Hz. rewrite FloatAxioms.eqb_spec in Hy, Hyn.
  rewrite Prim2SF_zero in Hy.
  destruct (Prim2SF y) as [sy|sy| |sy m e]; cbn in *; try discriminate; eauto.
Qed.

Lemma float_mul_zero_l z y :
  (z =? 0) = true -> PrimFloat.is_finite y = true -> (z * y =? 0) = true.
Proof.
  intros [s Hz]%float_eqb_zero Hy. apply float_eqb_zero.
  rewrite mul_spec, Hz.
  destruct (float_is_finite y Hy) as [[sy ->]|(sy & m & e & ->)]; cbn; eauto.
Qed.

Lemma float_zero_sub z y :
  (z =? 0) = true -> (y =? 0) = false -> (y =? y) = true ->
  (z - y =? 0) = false /\ (z - y =? z - y) = true.
Proof.
  intros [s Hz]%float_eqb_zero Hy Hyn.
  rewrite !FloatAxioms.eqb_spec, !sub_spec, Hz, Prim2SF_zero.
  rewrite FloatAxioms.eqb_spec in Hy, Hyn. rewrite Prim2SF_zero in Hy.
  destruct (Prim2SF y) as [sy|sy| |sy m e]; cbn in *; try discriminate.
  - now destruct sy.
  - split; [now destruct sy | apply SFeqb_finite_refl].
Qed.

#[export] Instance float_ZeroLaws : ZeroLaws float.
Proof.
  split; cbn.
  - exact float_abs_of_zero.
  - exact float_abs_nonzero.
  - exact float_sub_diag.
  - exact float_sub_zero_r.
  - exact float_div_zero_l.
  - exact float_mul_zero_l.
  - exact float_zero_sub.
Qed.

End Binary64.

(** ** Exact rationals obey the laws of zero *)

Section Rationals.
Local Open Scope Qc_scope.

Lemma Qc_eqb_true (x y : Qc) : Qc_eq_bool x y = true <-> x = y.
Proof.
  split; [apply Qc_eq_bool_correct|]. intros ->. unfold Qc_eq_bool.
  destruct (Qcanon.Qc_eq_dec y y); congruence.
Qed.

Lemma Qc_eqb_false (x y : Qc) : Qc_eq_bool x y = false <-> x <> y.
Proof.
  unfold Qc_eq_bool. destruct (Qcanon.Qc_eq_dec x y); split; congruence.
Qed.

Lemma Qc_abs_zero : Qc_abs (Q2Qc 0) = Q2Qc 0.
Proof. reflexivity. Qed.

Lemma Qc_abs_nonzero (x : Qc) : x <> Q2Qc 0 -> Qc_abs x <> Q2Qc 0.
Proof.
  intros Hx. unfold Qc_abs. destruct (Qc_ltb x (Q2Qc 0)); [|exact Hx].
  intros Hneg. apply Hx.
  rewrite <- (Qcopp_involutive x), Hneg. reflexivity.
Qed.

(** In exact arithmetic the Aitken denominator vanishes at every fixed
    point. *)
Lemma Qc_denominator_at_fixed_point (r : Qc) : denominator_of r r r = Q2Qc 0.
Proof.
  change (r - Q2Qc 2 * r + r = Q2Qc 0).
  replace (Q2Qc 2) with (1 + 1) by (apply Qc_is_canon; reflexivity).
  ring.
Qed.

#[export] Instance Qc_ZeroLaws : ZeroLaws Qc.
Proof.
  split; cbn.
  - intros z ->%Qc_eqb_true. exact Qc_abs_zero.
  - intros x Hx%Qc_eqb_false. now apply Qc_eqb_false, Qc_abs_nonzero.
  - intros x _. apply Qc_eqb_true. ring.
  - intros x z ->%Qc_eqb_true _. ring.
  - intros z y ->%Qc_eqb_true _ _. apply Qc_eqb_true. unfold Qcdiv. ring.
  - intros z y ->%Qc_eqb_true _. apply Qc_eqb_true. ring.
  - intros z y ->%Qc_eqb_true Hy%Qc_eqb_false _. split.
    + apply Qc_eqb_false. intros Hz. apply Hy.
      rewrite <- (Qcopp_involutive y). 
      replace (- y) with (Q2Qc 0 - y) by ring. rewrite Hz. reflexivity.
    + now apply Qc_eqb_true.
Qed.

End Rationals.

(** ** Starting on the root *)

Section ExactGuess.
Context {num : Type} `{ZeroLaws num}.
Implicit Types (f fp : num -> num) (fv : list num -> list num).
Implicit Types (r tol : num) (t : table num).

Lemma broadcast_same (xs : list num) : broadcast xs xs = Some (combine xs xs).
Proof. unfold broadcast. now rewrite Nat.eqb_refl. Qed.

Lemma np_allclose_same (xs : list num) tol :
  forallb (fun c => eqb c c) xs = true -> np_allclose xs xs tol = Returned true.
Proof.
  intros Hxs. unfold np_allclose. rewrite broadcast_same. f_equal.
  induction xs as [|c xs IH]; [reflexivity|].
  cbn in *. apply andb_prop in Hxs as [Hc Hxs].
  unfold isclose at 1. rewrite Hc, orb_true_r. cbn. now apply IH.
Qed.

Lemma allclose_same (xs : list num) tol t :
  forallb (fun c => eqb c c) xs = true ->
  allclose xs xs tol t = (Returned true, t, []).
Proof. intros Hxs. unfold allclose. now rewrite np_allclose_same. Qed.

Lemma fixed_point_exact_guess fv (rs : list num) tol (max_iter : Z) t :
  fv rs = rs -> forallb (fun c => eqb c c) rs = true -> 0 < max_iter ->
  fixed_point_iteration fv rs tol max_iter t =
    (Returned rs, t, [Iter 0; CallFvec rs]).
Proof.
  intros Hfix Hnan Hpos. unfold fixed_point_iteration.
  destruct (Z.to_nat max_iter) as [|n] eqn:Hn; [lia|].
  rewrite for_range_S. unfold fixed_point_body, bind, call_fvec.
  rewrite Hfix, (allclose_same rs tol t Hnan). reflexivity.
Qed.

(** At a finite [r] the difference [r - r] passes every positive
    tolerance. *)
Lemma diff_self_below_tol r tol :
  isfinite r = true -> ltb zero tol = true -> ltb (abs (sub r r)) tol = true.
Proof.
  intros Hfin Htol. now rewrite (abs_of_zero _ (sub_diag r Hfin)).
Qed.

Lemma Newton_exact_guess f fp r tol (N_0 : Z) t :
  eqb (f r) zero = true ->
  eqb (fp r) zero = false -> eqb (fp r) (fp r) = true ->
  eqb r zero = false -> isfinite r = true ->
  ltb zero tol = true -> 0 < N_0 ->
  Newton_Raphson f fp r tol N_0 t =
    (Returned r, [(0, r, f r)],
     [Iter 0; CallF r; CallFp r; CallF r; PrintTable [(0, r, f r)];
      PrintER (mul (truediv (abs (sub r r)) (abs r)) hundred)]).
Proof.
  intros Hroot Hd Hdn Hr Hfin Htol Hpos. unfold Newton_Raphson.
  destruct (Z.to_nat N_0) as [|n] eqn:Hn; [lia|].
  unfold bind at 1, clear_rows. rewrite for_range_S.
  unfold Newton_body. py_unfold. rewrite Hd. cbn.
  rewrite (sub_zero_r r _ (div_zero_l _ _ Hroot Hd Hdn) Hr).
  rewrite (diff_self_below_tol r tol Hfin Htol). cbn.
  rewrite (abs_nonzero r Hr). reflexivity.
Qed.

Lemma Secante_exact_guess f p_0 r tol (N_0 : Z) t :
  eqb (f r) zero = true ->
  eqb (f p_0) zero = false -> eqb (f p_0) (f p_0) = true ->
  isfinite (sub r p_0) = true ->
  eqb r zero = false -> isfinite r = true ->
  ltb zero tol = true -> 0 < N_0 ->
  Secante f p_0 r tol N_0 t =
    (Returned r, [(0, p_0, f p_0); (1, r, f r); (0, r, f r)],
     [CallF p_0; CallF r; Iter 0; CallF r;
      PrintTable [(0, p_0, f p_0); (1, r, f r); (0, r, f r)];
      PrintER (mul (truediv (abs (sub r r)) (abs r)) hundred)]).
Proof.
  intros Hroot Hq Hqn Hspan Hr Hfin Htol Hpos. unfold Secante.
  destruct (Z.to_nat N_0) as [|n] eqn:Hn; [lia|].
  destruct (zero_sub _ _ Hroot Hq Hqn) as [Hden Hdenn].
  unfold bind at 1 2 3 4 5, clear_rows, call_f, add_row. cbn [app].
  rewrite for_range_S, (Secante_body_spec f tol 0 _ _ _ _ _ Hden). cbn zeta.
  rewrite (sub_zero_r r _
             (div_zero_l _ _ (mul_zero_l _ _ Hroot Hspan) Hden Hdenn) Hr).
  rewrite (diff_self_below_tol r tol Hfin Htol), (abs_nonzero r Hr).
  reflexivity.
Qed.

Lemma steffensen_exact_guess f r tol (max_iter : Z) t :
  f r = r -> eqb (denominator_of r r r) zero = true ->
  ltb zero tol = true -> 0 < max_iter ->
  steffensen f r tol max_iter t =
    (Returned None, t,
     [Iter 0; CallF r; CallF r;
      PrintMsg "Denominator too small. Method might not converge."]).
Proof.
  intros Hfix Hd Htol Hpos. unfold steffensen.
  destruct (Z.to_nat max_iter) as [|n] eqn:Hn; [lia|].
  rewrite for_range_S. unfold steffensen_body. py_unfold.
  rewrite !Hfix, (abs_of_zero _ Hd), Htol. reflexivity.
Qed.

(** C2, as the code has it.  With a positive tolerance and a budget of at
    least one round, in any arithmetic that obeys the laws of zero:
    - fixed-point iteration started on an array [rs] with [f(rs) = rs]
      (no component a NaN) returns [rs] in its first round;
    - Newton-Raphson started on a finite [r <> 0] with [f(r) = 0] and
      [fp(r)] neither zero nor NaN returns [r] in its first round;
    - the secant method whose second guess is a finite [r <> 0] with
      [f(r) = 0], while [f(p_0)] is neither zero nor NaN and [r - p_0] is
      finite, returns [r] in its first round;
    - Steffensen started on [r] with [f(r) = r], where the Aitken
      denominator [r - 2 * r + r] is zero, does not return [r]: it returns
      [None] in its first round. *)
Theorem exact_guess_first_round fv f fp (rs : list num) r p_0 tol
    (max_iter : Z) t :
  ltb zero tol = true -> 0 < max_iter ->
  (fv rs = rs -> forallb (fun c => eqb c c) rs = true ->
   fixed_point_iteration fv rs tol max_iter t =
     (Returned rs, t, [Iter 0; CallFvec rs])) /\
  (eqb (f r) zero = true ->
   eqb (fp r) zero = false -> eqb (fp r) (fp r) = true ->
   eqb r zero = false -> isfinite r = true ->
   Newton_Raphson f fp r tol max_iter t =
     (Returned r, [(0, r, f r)],
      [Iter 0; CallF r; CallFp r; CallF r; PrintTable [(0, r, f r)];
       PrintER (mul (truediv (abs (sub r r)) (abs r)) hundred)])) /\
  (eqb (f r) zero = true ->
   eqb (f p_0) zero = false -> eqb (f p_0) (f p_0) = true ->
   isfinite (sub r p_0) = true ->
   eqb r zero = false -> isfinite r = true ->
   Secante f p_0 r tol max_iter t =
     (Returned r, [(0, p_0, f p_0); (1, r, f r); (0, r, f r)],
      [CallF p_0; CallF r; Iter 0; CallF r;
       PrintTable [(0, p_0, f p_0); (1, r, f r); (0, r, f r)];
       PrintER (mul (truediv (abs (sub r r)) (abs r)) hundred)])) /\
  (f r = r -> eqb (denominator_of r r r) zero = true ->
   steffensen f r tol max_iter t =
     (Returned None, t,
      [Iter 0; CallF r; CallF r;
       PrintMsg "Denominator too small. Method might not converge."])).
Proof.
  intros Htol Hpos. repeat split; intros.
  - now apply fixed_point_exact_guess.
  - now apply Newton_exact_guess.
  - now apply Secante_exact_guess.
  - now apply steffensen_exact_guess.
Qed.

End ExactGuess.

Lemma exact_guess_first_round_witness :
  fixed_point_iteration half_plus_one [2%float] tol_default 1000 [] =
    (Returned [2%float], [], [Iter 0; CallFvec [2%float]]) /\
  Newton_Raphson parabola parabola' 2%float tol_default 1000 [] =
    (Returned 2%float, [(0, 2%float, parabola 2)],
     [Iter 0; CallF 2%float; CallFp 2%float; CallF 2%float;
      PrintTable [(0, 2%float, parabola 2)];
      PrintER (mul (truediv (abs (sub 2%float 2%float)) (abs 2%float)) hundred)]) /\
  Secante parabola 3%float 2%float tol_default 1000 [] =
    (Returned 2%float,
     [(0, 3%float, parabola 3); (1, 2%float, parabola 2); (0, 2%float, parabola 2)],
     [CallF 3%float; CallF 2%float; Iter 0; CallF 2%float;
      PrintTable [(0, 3%float, parabola 3); (1, 2%float, parabola 2);
                  (0, 2%float, parabola 2)];
      PrintER (mul (truediv (abs (sub 2%float 2%float)) (abs 2%float)) hundred)]) /\
  steffensen square 1%float tol_default 100 [] =
    (Returned None, [],
     [Iter 0; CallF 1%float; CallF 1%float;
      PrintMsg "Denominator too small. Method might not converge."]).
Proof.
  assert (ltb zero tol_default = true) as Htol by (vm_compute; reflexivity).
  split; [|split; [|split]].
  - apply (exact_guess_first_round half_plus_one parabola parabola'
             [2%float] 2%float 3%float tol_default 1000 [] Htol); [lia | |];
      vm_compute; reflexivity.
  - apply (exact_guess_first_round half_plus_one parabola parabola'
             [2%float] 2%float 3%float tol_default 1000 [] Htol); [lia | ..];
      vm_compute; reflexivity.
  - apply (exact_guess_first_round half_plus_one parabola parabola'
             [2%float] 2%float 3%float tol_default 1000 [] Htol); [lia | ..];
      vm_compute; reflexivity.
  - apply (exact_guess_first_round half_plus_one square parabola'
             [2%float] 1%float 3%float tol_default 100 [] Htol); [lia | ..];
      vm_compute; reflexivity.
Defined.

(** Starts on an exact root that do not return it in the first round.
    Steffensen on the fixed point [1.0] of [lambda x: x * x] returns [None];
    Newton-Raphson on the double root [0.0] of [lambda x: x * x], where the
    derivative [2 * x] vanishes too, raises [ZeroDivisionError]; the secant
    method with the root [2.0] of [lambda x: x * x - 4] as its first guess
    and [3.0] as its second returns only in its second round. *)
Lemma exact_guess_without_success :
  (square 1 = 1%float /\
   ltb zero tol_default = true /\
   outcome (steffensen square 1%float tol_default 100 []) = Returned None) /\
  (eqb (square 0) zero = true /\
   outcome (Newton_Raphson square parabola' 0%float tol_default 1000 [])
     = Raised ZeroDivisionError) /\
  (eqb (parabola 2) zero = true /\
   outcome (Secante parabola 2%float 3%float tol_default 1000 [])
     = Returned 2%float /\
   iterations (events (Secante parabola 2%float 3%float tol_default 1000 []))
     = 2%nat).
Proof. vm_compute. repeat split. Qed.

(** The root [0.0] itself: Newton-Raphson on [lambda x: x] with derivative
    [1.0] finds [p = 0.0] with [|p - p_0| = 0], prints the table and then
    raises [ZeroDivisionError] from the error percentage. *)
Example Newton_raises_at_root_zero :
  Newton_Raphson identity const_one 0%float tol_default 1000 [] =
    (Raised ZeroDivisionError, [(0, 0%float, 0%float)],
     [Iter 0; CallF 0%float; CallFp 0%float; CallF 0%float;
      PrintTable [(0, 0%float, 0%float)]]).
Proof. vm_compute. reflexivity. Qed.

(** ** What fixed-point iteration may overwrite *)

Section Frame.
Context {num : Type} `{Number num}.
Implicit Types (h : gmap positive (list num)) (l k x : positive).
Implicit Types
  (f : positive -> gmap positive (list num) -> positive * gmap positive (list num)).

Lemma np_array_fresh l h : h !! (np_array l h).1 = None.
Proof.
  unfold np_array. cbn. apply not_elem_of_dom, is_fresh.
Qed.

Lemma np_array_frame l h k :
  is_Some (h !! k) -> (np_array l h).2 !! k = h !! k.
Proof.
  intros Hk. unfold np_array. cbn. apply lookup_insert_ne.
  intros Heq. rewrite <- Heq in Hk.
  pose proof (np_array_fresh l h) as Hfresh. unfold np_array in Hfresh.
  cbn in Hfresh. rewrite Hfresh in Hk. now destruct Hk.
Qed.

Lemma np_array_contents l h :
  (np_array l h).2 !! (np_array l h).1 = Some (h !!! l).
Proof. unfold np_array. cbn. apply lookup_insert_eq. Qed.

(** The loop leaves alone every object other than the one it works on, and
    the reference it returns is to none of them. *)
Lemma store_fixed_point_loop_frame f tol n : forall x h k,
  writes_only_its_argument f ->
  k <> x -> is_Some (h !! k) ->
  (store_fixed_point_loop f tol n x h).2 !! k = h !! k /\
  (store_fixed_point_loop f tol n x h).1 <> Returned k.
Proof.
  induction n as [|n IH]; intros x h k Hf Hkx Hk; [now split|].
  cbn [store_fixed_point_loop].
  pose proof (Hf x h k Hkx Hk) as Hstep.
  destruct (f x h) as [y h1]. cbn in Hstep.
  assert (is_Some (h1 !! k)) as Hk1 by now rewrite Hstep.
  pose proof (np_array_frame y h1 k Hk1) as Hcopy.
  pose proof (np_array_fresh y h1) as Hnew.
  destruct (np_array y h1) as [x_new h2]. cbn in Hcopy, Hnew.
  assert (is_Some (h2 !! k)) as Hk2 by now rewrite Hcopy.
  assert (k <> x_new) as Hne.
  { intros ->. rewrite Hnew in Hk1. now destruct Hk1. }
  destruct (np_allclose (h2 !!! x_new) (h2 !!! x) tol) as [[|]|e]; cbn.
  - split; [now rewrite Hcopy | congruence].
  - destruct (IH x_new h2 k Hf Hne Hk2) as [IH1 IH2].
    split; [now rewrite IH1, Hcopy | exact IH2].
  - split; [now rewrite Hcopy | congruence].
Qed.

(** C9.  Fixed-point iteration does not change the array [x0] it is given:
    whatever [f] does to the arrays it is handed (here: anything, as long
    as it writes to no other object that existed before the call), the
    contents of [x0] after the call are those before it.  The solver hands
    [f] a copy made by [np.array], never [x0] itself, and what it returns
    is a further copy, never [x0]. *)
Theorem fixed_point_leaves_x0 f x0 tol (max_iter : Z) h :
  writes_only_its_argument f ->
  is_Some (h !! x0) ->
  (store_fixed_point_iteration f x0 tol max_iter h).2 !! x0 = h !! x0 /\
  (store_fixed_point_iteration f x0 tol max_iter h).1 <> Returned x0.
Proof.
  intros Hf Hx0. unfold store_fixed_point_iteration.
  pose proof (np_array_frame x0 h x0 Hx0) as Hcopy.
  pose proof (np_array_fresh x0 h) as Hnew.
  destruct (np_array x0 h) as [x h0]. cbn in Hcopy, Hnew.
  destruct (store_fixed_point_loop_frame f tol (Z.to_nat max_iter) x h0 x0 Hf)
    as [Hsame Hret].
  - intros ->. rewrite Hnew in Hx0. now destruct Hx0.
  - now rewrite Hcopy.
  - split; [now rewrite Hsame | exact Hret].
Qed.

End Frame.

Lemma plus_one_in_place_frame : writes_only_its_argument plus_one_in_place.
Proof.
  intros l h k Hne _. unfold plus_one_in_place. cbn.
  now apply lookup_insert_ne.
Qed.

Lemma fixed_point_leaves_x0_witness :
  (store_fixed_point_iteration plus_one_in_place 1%positive tol_default 1000
     {[ 1%positive := [1000000%float] ]}).2 !! 1%positive =
  ({[ 1%positive := [1000000%float] ]} : gmap positive (list float)) !! 1%positive /\
  (store_fixed_point_iteration plus_one_in_place 1%positive tol_default 1000
     {[ 1%positive := [1000000%float] ]}).1 <> Returned 1%positive.
Proof.
  apply (fixed_point_leaves_x0 plus_one_in_place 1%positive tol_default 1000).
  - exact plus_one_in_place_frame.
  - exists [1000000%float]. reflexivity.
Defined.

(** In that run [f] did overwrite the array it was handed, the copy at
    reference 2, and the call returned a further copy, at reference 3. *)
Example fixed_point_in_place_run :
  let run := store_fixed_point_iteration plus_one_in_place 1%positive
               tol_default 1000 {[ 1%positive := [1000000%float] ]} in
  run.1 = Returned 3%positive /\
  run.2 !! 1%positive = Some [1000000%float] /\
  run.2 !! 2%positive = Some [1000001%float] /\
  run.2 !! 3%positive = Some [1000001%float].
Proof. vm_compute. repeat split. Qed.

(** *** The store model against the value model *)

Section Refinement.
Context {num : Type} `{Number num}.
Implicit Types (h : gmap positive (list num)) (fv : list num -> list num).

Lemma on_store_then_copy fv x h xs :
  h !! x = Some xs ->
  let h1 := (on_store fv x h).2 in
  let c := np_array (on_store fv x h).1 h1 in
  c.2 !! c.1 = Some (fv xs) /\ c.2 !! x = Some xs.
Proof.
  intros Hx h1 c.
  assert (h !!! x = xs) as Hxs by now apply lookup_total_correct.
  assert (h1 !! (on_store fv x h).1 = Some (fv xs)) as Hy.
  { unfold h1, on_store. cbn. rewrite Hxs. apply lookup_insert_eq. }
  assert (h1 !! x = Some xs) as Hx1.
  { unfold h1, on_store. cbn. rewrite lookup_insert_ne; [exact Hx|].
    intros Heq. pose proof (is_fresh (dom h)) as Hf. rewrite Heq in Hf.
    apply Hf, elem_of_dom. eauto. }
  split.
  - unfold c. rewrite np_array_contents. f_equal.
    now apply lookup_total_correct.
  - unfold c. rewrite np_array_frame; eauto.
Qed.

Lemma store_fixed_point_loop_refines fv tol n : forall i x h xs t,
  h !! x = Some xs ->
  let pure := for_range n i (fixed_point_body fv tol) xs
                (raise ConvergenceError) t in
  match store_fixed_point_loop (on_store fv) tol n x h with
  | (Returned l, h') => exists r, h' !! l = Some r /\ outcome pure = Returned r
  | (Raised e, _) => outcome pure = Raised e
  end.
Proof.
  induction n as [|n IH]; intros i x h xs t Hx; [reflexivity|].
  cbn zeta. rewrite for_range_S. cbn [store_fixed_point_loop].
  destruct (on_store_then_copy fv x h xs Hx) as [Hnew Hold].
  destruct (on_store fv x h) as [y h1]. cbn [fst snd] in Hnew, Hold.
  destruct (np_array y h1) as [x_new h2]. cbn [fst snd] in Hnew, Hold.
  rewrite (lookup_total_correct _ _ _ Hnew), (lookup_total_correct _ _ _ Hold).
  unfold fixed_point_body, bind, call_fvec, allclose.
  destruct (np_allclose (fv xs) xs tol) as [[|]|e]; cbn.
  - eauto.
  - specialize (IH (i + 1) x_new h2 (fv xs) t Hnew). cbn zeta in IH.
    destruct (store_fixed_point_loop (on_store fv) tol n x_new h2) as [[l|e] h'];
      destruct (for_range n (i + 1) _ (fv xs) _ t) as [[r' t'] w']; exact IH.
  - reflexivity.
Qed.

(** For a pure [fv] the store model returns a reference to what the value
    model returns, and raises what it raises. *)
Lemma store_fixed_point_iteration_refines fv x0 tol (max_iter : Z) h xs t :
  h !! x0 = Some xs ->
  match store_fixed_point_iteration (on_store fv) x0 tol max_iter h with
  | (Returned l, h') =>
      exists r, h' !! l = Some r /\
        outcome (fixed_point_iteration fv xs tol max_iter t) = Returned r
  | (Raised e, _) =>
      outcome (fixed_point_iteration fv xs tol max_iter t) = Raised e
  end.
Proof.
  intros Hx0. unfold store_fixed_point_iteration, fixed_point_iteration.
  pose proof (np_array_contents x0 h) as Hc.
  destruct (np_array x0 h) as [x h0]. cbn [fst snd] in Hc.
  rewrite (lookup_total_correct _ _ _ Hx0) in Hc.
  exact (store_fixed_point_loop_refines fv tol _ 0 x h0 xs t Hc).
Qed.

End Refinement.

(** ** The runs of the docstrings, in binary64

    The docstrings write their function as [x**2 - 4]; the runs below take
    [x * x - 4], the same function with the square as a product, and the
    solvers on Python floats. *)

(** [Newton_Raphson(lambda x: x * x - 4, lambda x: 2 * x, 3.0)] returns
    [2.0] in its fifth round, with one row a round. *)
Example Newton_on_parabola :
  let run := Newton_Raphson parabola parabola' 3%float tol_default 1000 [] in
  outcome run = Returned 2%float /\
  final_table run =
    [(0, 2.1666666666666665%float, 0.69444444444444375%float);
     (1, 2.0064102564102564%float, 0.02568211702827039%float);
     (2, 2.0000102400262145%float, 4.0960209716445206e-05%float);
     (3, 2.0000000000262141%float, 1.0485656787295738e-10%float);
     (4, 2%float, 0%float)] /\
  iterations (events run) = 5%nat.
Proof. vm_compute. repeat split. Qed.

(** [Secante(lambda x: x * x - 4, 3.0, 4.0)] approaches the root [2]. *)
Example Secante_on_parabola :
  outcome (Secante parabola 3%float 4%float tol_default 1000 [])
    = Returned 2.0000000000064229%float.
Proof. vm_compute. reflexivity. Qed.

(** [steffensen] looks for a fixed point of the function it is given.  On
    [lambda x: x * x - 4] from [3.0] the model, whose [** 2] on line 186 is
    the correctly rounded product, returns the fixed point
    [(1 + sqrt 17) / 2]; on [lambda x: x * x - 4 + x], whose fixed point is
    the root [2], the iterates come so close to [2] that the denominator
    falls below [tol] before two iterates do, and the call returns [None]. *)
Example steffensen_on_parabola :
  outcome (steffensen parabola 3%float tol_default 100 [])
    = Returned (Some 2.5615528128093081%float) /\
  outcome (steffensen (fun x => parabola x + x)%float 3%float tol_default 100 [])
    = Returned None.
Proof. vm_compute. split; reflexivity. Qed.

(** [lambda x: x + 1] has no fixed point: from [[0.0]] with a budget of 50
    the call makes 50 rounds and raises. *)
Example fixed_point_without_fixed_point :
  let run := fixed_point_iteration plus_one [0%float] tol_default 50 [] in
  outcome run = Raised ConvergenceError /\ iterations (events run) = 50%nat.
Proof. vm_compute. repeat split. Qed.

(** * Further properties *)

(** ** How a loop ends *)

Section Endings.
Context {num : Type} `{Number num} {S A : Type}.
Implicit Types (body : Z -> S -> Py num (flow S A)) (after : Py num A).

(** A loop ends in one of three ways: all [n] rounds fall through and the
    code after the loop runs; or some round [k < n] returns; or some round
    [k < n] raises.  In each case the rounds before are those of [rounds]. *)
Lemma for_range_ends n : forall i body s after t,
  (exists s' t' w,
     rounds n i body s t = Some (s', t', w) /\
     for_range n i body s after t =
       (outcome (after t'), final_table (after t'), w ++ events (after t'))) \/
  (exists k s' t' w a t'' w',
     (k < n)%nat /\
     rounds k i body s t = Some (s', t', w) /\
     body (i + Z.of_nat k) s' t' = (Returned (Return a), t'', w') /\
     for_range n i body s after t =
       (Returned a, t'', w ++ Iter (i + Z.of_nat k) :: w')) \/
  (exists k s' t' w e t'' w',
     (k < n)%nat /\
     rounds k i body s t = Some (s', t', w) /\
     body (i + Z.of_nat k) s' t' = (Raised e, t'', w') /\
     for_range n i body s after t =
       (Raised e, t'', w ++ Iter (i + Z.of_nat k) :: w')).
Proof.
  induction n as [|n IH]; intros i body s after t.
  - left. exists s, t, []. split; [reflexivity|].
    cbn. now destruct (after t) as [[r t'] w].
  - rewrite for_range_S.
    destruct (body i s t) as [[[[s1|a]|e] t1] w1] eqn:Hb.
    + destruct (IH (i + 1) body s1 after t1)
        as [(s' & t' & w & Hr & Hrun)
           |[(k & s' & t' & w & a & t'' & w' & Hk & Hr & Hbk & Hrun)
            |(k & s' & t' & w & e & t'' & w' & Hk & Hr & Hbk & Hrun)]];
        rewrite Hrun; cbn.
      * left. exists s', t', (Iter i :: w1 ++ w).
        rewrite Hb, Hr. split; [reflexivity|].
        now rewrite <- app_comm_cons, <- app_assoc.
      * right; left.
        exists (Datatypes.S k), s', t', (Iter i :: w1 ++ w), a, t'', w'.
        cbn [rounds]. rewrite Hb, Hr.
        replace (i + Z.of_nat (Datatypes.S k)) with (i + 1 + Z.of_nat k) by lia.
        repeat split; [lia | exact Hbk |].
        now rewrite <- app_comm_cons, <- app_assoc.
      * right; right.
        exists (Datatypes.S k), s', t', (Iter i :: w1 ++ w), e, t'', w'.
        cbn [rounds]. rewrite Hb, Hr.
        replace (i + Z.of_nat (Datatypes.S k)) with (i + 1 + Z.of_nat k) by lia.
        repeat split; [lia | exact Hbk |].
        now rewrite <- app_comm_cons, <- app_assoc.
    + right; left. exists 0%nat, s, t, [], a, t1, w1.
      rewrite Z.add_0_r. repeat split; [lia | exact Hb].
    + right; right. exists 0%nat, s, t, [], e, t1, w1.
      rewrite Z.add_0_r. repeat split; [lia | exact Hb].
Qed.

(** What holds at the start and is kept by every round that falls through
    holds after [k] rounds. *)
Lemma rounds_invariant (P : Z -> S -> table num -> Prop) body k :
  forall i s t s' t' w,
  (forall i s t s1 t1 w1,
     P i s t -> body i s t = (Returned (Continue s1), t1, w1) ->
     P (i + 1) s1 t1) ->
  P i s t ->
  rounds k i body s t = Some (s', t', w) ->
  P (i + Z.of_nat k) s' t'.
Proof.
  induction k as [|k IH]; intros i s t s' t' w Hstep HP Hr.
  - cbn in Hr. injection Hr as <- <- <-. now rewrite Z.add_0_r.
  - cbn [rounds] in Hr.
    destruct (body i s t) as [[[[s1|a]|e] t1] w1] eqn:Hb; try discriminate.
    destruct (rounds k (i + 1) body s1 t1) as [[[s2 t2] w2]|] eqn:Hr2;
      try discriminate.
    injection Hr as <- <- <-.
    replace (i + Z.of_nat (Datatypes.S k)) with (i + 1 + Z.of_nat k) by lia.
    eapply IH; eauto.
Qed.

(** [k] rounds start [k] loop bodies. *)
Lemma rounds_iterations body k : forall i s t s' t' w,
  (forall i s t, iterations (events (body i s t)) = 0%nat) ->
  rounds k i body s t = Some (s', t', w) ->
  iterations w = k.
Proof.
  induction k as [|k IH]; intros i s t s' t' w Hb Hr.
  - cbn in Hr. now injection Hr as <- <- <-.
  - cbn [rounds] in Hr. pose proof (Hb i s t) as Hb1.
    destruct (body i s t) as [[[[s1|a]|e] t1] w1] eqn:Heq; try discriminate.
    destruct (rounds k (i + 1) body s1 t1) as [[[s2 t2] w2]|] eqn:Hr2;
      try discriminate.
    injection Hr as <- <- <-.
    change (Iter i :: w1 ++ w2) with ([Iter i] ++ w1 ++ w2).
    rewrite !iterations_app, (IH _ _ _ _ _ _ Hb Hr2).
    unfold events in Hb1. cbn [snd] in Hb1. rewrite Hb1. reflexivity.
Qed.

End Endings.

(** ** Every round, case by case *)

Section RoundCases.
Context {num : Type} `{Number num}.
Implicit Types (f fp : num -> num) (x p tol : num) (t : table num) (i : Z).

Lemma Newton_body_cases f fp tol i p t :
  Newton_body f fp tol i p t =
  if eqb (fp p) zero then (Raised ZeroDivisionError, t, [CallF p; CallFp p])
  else
    let p' := Newton_step f fp p in
    let t' := t ++ [(i, p', f p')] in
    if ltb (abs (sub p' p)) tol then
      if eqb (abs p') zero then
        (Raised ZeroDivisionError, t',
         [CallF p; CallFp p; CallF p'; PrintTable t'])
      else
        (Returned (Return p'), t',
         [CallF p; CallFp p; CallF p'; PrintTable t';
          PrintER (mul (truediv (abs (sub p' p)) (abs p')) hundred)])
    else (Returned (Continue p'), t', [CallF p; CallFp p; CallF p']).
Proof.
  unfold Newton_body, Newton_step. py_unfold.
  destruct (eqb (fp p) zero); cbn; [reflexivity|].
  destruct (ltb _ tol); cbn; [|reflexivity].
  destruct (eqb (abs _) zero); reflexivity.
Qed.

Lemma Secante_body_cases f tol i p_0 q_0 p_1 q_1 t :
  Secante_body f tol i (p_0, q_0, p_1, q_1) t =
  if eqb (sub q_1 q_0) zero then (Raised ZeroDivisionError, t, [])
  else
    let p := Secante_step p_0 q_0 p_1 q_1 in
    let t' := t ++ [(i, p, f p)] in
    if ltb (abs (sub p p_1)) tol then
      if eqb (abs p) zero then
        (Raised ZeroDivisionError, t', [CallF p; PrintTable t'])
      else
        (Returned (Return p), t',
         [CallF p; PrintTable t';
          PrintER (mul (truediv (abs (sub p p_1)) (abs p)) hundred)])
    else (Returned (Continue (p_1, q_1, p, f p)), t', [CallF p; CallF p]).
Proof.
  unfold Secante_body, Secante_step. py_unfold.
  destruct (eqb (sub q_1 q_0) zero); cbn; [reflexivity|].
  destruct (ltb _ tol); cbn; [|reflexivity].
  destruct (eqb (abs _) zero); reflexivity.
Qed.

Lemma steffensen_body_cases f tol i x t :
  steffensen_body f tol i x t =
  let d := denominator_of x (f x) (f (f x)) in
  let calls := [CallF x; CallF (f x)] in
  if ltb (abs d) tol then
    (Returned (Return None), t,
     calls ++ [PrintMsg "Denominator too small. Method might not converge."])
  else if isfinite (sub (f x) x)
          && negb (isfinite (mul (sub (f x) x) (sub (f x) x))) then
    (Raised OverflowError, t, calls)
  else if eqb d zero then (Raised ZeroDivisionError, t, calls)
  else
    let x_new := steffensen_step f x in
    if ltb (abs (sub x_new x)) tol then (Returned (Return (Some x_new)), t, calls)
    else (Returned (Continue x_new), t, calls).
Proof.
  unfold steffensen_body, steffensen_step. py_unfold. cbn zeta.
  destruct (ltb (abs _) tol); cbn; [reflexivity|].
  destruct (isfinite (sub (f x) x) && _); cbn; [reflexivity|].
  destruct (eqb _ zero); cbn; [reflexivity|].
  destruct (ltb _ tol); reflexivity.
Qed.

(** The exceptions a single round can raise. *)
Lemma fixed_point_body_raises (fv : list num -> list num) tol i xs t e :
  outcome (fixed_point_body fv tol i xs t) = Raised e -> e = BroadcastError.
Proof.
  rewrite fixed_point_body_spec. unfold np_allclose.
  destruct (broadcast (fv xs) xs); [|now intros [= <-]].
  destruct (forallb _ _); discriminate.
Qed.

Lemma Newton_body_raises f fp tol i p t e :
  outcome (Newton_body f fp tol i p t) = Raised e -> e = ZeroDivisionError.
Proof.
  rewrite Newton_body_cases. cbn zeta.
  repeat match goal with |- context [if ?b then _ else _] => destruct b end;
    cbn; congruence.
Qed.

Lemma Secante_body_raises f tol i (s : num * num * num * num) t e :
  outcome (Secante_body f tol i s t) = Raised e -> e = ZeroDivisionError.
Proof.
  destruct s as [[[p_0 q_0] p_1] q_1]. rewrite Secante_body_cases. cbn zeta.
  repeat match goal with |- context [if ?b then _ else _] => destruct b end;
    cbn; congruence.
Qed.

Lemma steffensen_body_raises f tol i x t e :
  outcome (steffensen_body f tol i x t) = Raised e ->
  e = ZeroDivisionError \/ e = OverflowError.
Proof.
  rewrite steffensen_body_cases. cbn zeta.
  repeat match goal with |- context [if ?b then _ else _] => destruct b end;
    cbn; intros [= <-] || discriminate; auto.
Qed.

(** A loop followed by [raise e0] raises [e0] or what a round raises; and
    when no round can raise [e0], raising [e0] means that all the rounds
    of the budget were made. *)
Lemma for_range_raises {S A} n i (body : Z -> S -> Py num (flow S A)) s e0 t e :
  outcome (for_range n i body s (raise e0) t) = Raised e ->
  e = e0 \/ exists i' s' t', outcome (body i' s' t') = Raised e.
Proof.
  intros Hout.
  destruct (for_range_ends n i body s (raise e0) t)
    as [(s' & t' & w & Hr & Hrun)
       |[(k & s' & t' & w & a & t'' & w' & Hk & Hr & Hbk & Hrun)
        |(k & s' & t' & w & e' & t'' & w' & Hk & Hr & Hbk & Hrun)]];
    rewrite Hrun in Hout; cbn in Hout.
  - left. congruence.
  - discriminate.
  - right. exists (i + Z.of_nat k), s', t'. rewrite Hbk.
    injection Hout as ->. reflexivity.
Qed.

Lemma for_range_exhausted {S A} n i (body : Z -> S -> Py num (flow S A)) s e0 t :
  (forall i s t, outcome (body i s t) <> Raised e0) ->
  outcome (for_range n i body s (raise e0) t) = Raised e0 ->
  exists s' t' w,
    rounds n i body s t = Some (s', t', w) /\
    for_range n i body s (raise e0) t = (Raised e0, t', w).
Proof.
  intros Hb Hout.
  destruct (for_range_ends n i body s (raise e0) t)
    as [(s' & t' & w & Hr & Hrun)
       |[(k & s' & t' & w & a & t'' & w' & Hk & Hr & Hbk & Hrun)
        |(k & s' & t' & w & e' & t'' & w' & Hk & Hr & Hbk & Hrun)]];
    rewrite Hrun in Hout; cbn in Hout.
  - exists s', t', w. split; [exact Hr|]. rewrite Hrun. cbn.
    now rewrite app_nil_r.
  - discriminate.
  - exfalso. apply (Hb (i + Z.of_nat k) s' t'). rewrite Hbk.
    injection Hout as ->. reflexivity.
Qed.

End RoundCases.

(** ** Failures *)

Section Failures.
Context {num : Type} `{Number num}.
Implicit Types (f fp : num -> num) (fv : list num -> list num).
Implicit Types (x p tol : num) (xs : list num) (t : table num).

(** The solvers with a table as runs of their loops. *)
Lemma Newton_Raphson_run f fp p_0 tol (N_0 : Z) t :
  Newton_Raphson f fp p_0 tol N_0 t =
  for_range (Z.to_nat N_0) 0 (Newton_body f fp tol) p_0
    (raise ConvergenceError) [].
Proof.
  unfold Newton_Raphson, bind at 1, clear_rows.
  now destruct (for_range _ 0 _ p_0 _ []) as [[r t'] w].
Qed.

Lemma Secante_run f p_0 p_1 tol (N_0 : Z) t :
  Secante f p_0 p_1 tol N_0 t =
  let r := for_range (Z.to_nat N_0) 0 (Secante_body f tol)
             (p_0, f p_0, p_1, f p_1) (raise ConvergenceError)
             [(0, p_0, f p_0); (1, p_1, f p_1)] in
  (outcome r, final_table r, CallF p_0 :: CallF p_1 :: events r).
Proof.
  unfold Secante. py_unfold. cbn.
  now destruct (for_range _ 0 _ _ _ _) as [[r t'] w].
Qed.

Lemma BroadcastError_is_not_ConvergenceError : BroadcastError <> ConvergenceError.
Proof. discriminate. Qed.

(** No round raises the convergence failure. *)
Lemma fixed_point_body_not_ConvergenceError fv tol i xs t :
  outcome (fixed_point_body fv tol i xs t) <> Raised ConvergenceError.
Proof. intros He. now apply fixed_point_body_raises in He. Qed.

Lemma Newton_body_not_ConvergenceError f fp tol i p t :
  outcome (Newton_body f fp tol i p t) <> Raised ConvergenceError.
Proof. intros He. now apply Newton_body_raises in He. Qed.

Lemma Secante_body_not_ConvergenceError f tol i (s : num * num * num * num) t :
  outcome (Secante_body f tol i s t) <> Raised ConvergenceError.
Proof. intros He. now apply Secante_body_raises in He. Qed.

Lemma steffensen_body_not_ConvergenceError f tol i x t :
  outcome (steffensen_body f tol i x t) <> Raised ConvergenceError.
Proof. intros He. now apply steffensen_body_raises in He as [He|He]. Qed.

(** Rounds of Newton-Raphson and of the secant method that fall through
    add one row each. *)
Lemma Newton_rounds_rows f fp tol k : forall i p t p' t' w,
  rounds k i (Newton_body f fp tol) p t = Some (p', t', w) ->
  length t' = (length t + k)%nat.
Proof.
  intros i p t p' t' w Hr.
  pose proof (rounds_invariant
    (fun j (_ : num) tj => Z.of_nat (length tj) = Z.of_nat (length t) + (j - i))
    (Newton_body f fp tol) k i p t p' t' w) as Hinv.
  cbn beta in Hinv. enough (Z.of_nat (length t') = Z.of_nat (length t) + (i + Z.of_nat k - i)) by lia.
  apply Hinv; [|lia|exact Hr].
  intros j s tj s1 t1 w1 Hj Hb. rewrite Newton_body_cases in Hb. cbn zeta in Hb.
  repeat match type of Hb with context [if ?b then _ else _] => destruct b end;
    try discriminate.
  injection Hb as _ <- _. rewrite length_app. cbn. lia.
Qed.

Lemma Secante_rounds_rows f tol k : forall i (s : num * num * num * num) t s' t' w,
  rounds k i (Secante_body f tol) s t = Some (s', t', w) ->
  length t' = (length t + k)%nat.
Proof.
  intros i s t s' t' w Hr.
  pose proof (rounds_invariant
    (fun j (_ : num * num * num * num) tj =>
       Z.of_nat (length tj) = Z.of_nat (length t) + (j - i))
    (Secante_body f tol) k i s t s' t' w) as Hinv.
  cbn beta in Hinv. enough (Z.of_nat (length t') = Z.of_nat (length t) + (i + Z.of_nat k - i)) by lia.
  apply Hinv; [|lia|exact Hr].
  intros j [[[a b] c] d] tj s1 t1 w1 Hj Hb.
  rewrite Secante_body_cases in Hb. cbn zeta in Hb.
  repeat match type of Hb with context [if ?b then _ else _] => destruct b end;
    try discriminate.
  injection Hb as _ <- _. rewrite length_app. cbn. lia.
Qed.

(** X1.  A call that fails with the convergence [ValueError] has used its
    whole budget: it started exactly [max_iter] loop bodies (none for a
    negative [max_iter]).  For Newton-Raphson the table then holds one row
    for each of them, for the secant method these and the two rows of the
    starting points: the trace of the failed run is there for the caller. *)
Theorem convergence_failure_uses_the_budget fv f fp xs p_0 p_1 tol
    (max_iter : Z) t :
  let n := Z.to_nat max_iter in
  let r1 := fixed_point_iteration fv xs tol max_iter t in
  let r2 := Newton_Raphson f fp p_0 tol max_iter t in
  let r3 := Secante f p_0 p_1 tol max_iter t in
  let r4 := steffensen f p_0 tol max_iter t in
  (outcome r1 = Raised ConvergenceError -> iterations (events r1) = n) /\
  (outcome r2 = Raised ConvergenceError ->
   iterations (events r2) = n /\ length (final_table r2) = n) /\
  (outcome r3 = Raised ConvergenceError ->
   iterations (events r3) = n /\ length (final_table r3) = (2 + n)%nat) /\
  (outcome r4 = Raised ConvergenceError -> iterations (events r4) = n).
Proof.
  intros n r1 r2 r3 r4. subst r1 r2 r3 r4. repeat split.
  - unfold fixed_point_iteration. fold n. intros Hout.
    destruct (for_range_exhausted n 0 _ xs _ t
                (fixed_point_body_not_ConvergenceError fv tol) Hout)
      as (s' & t' & w & Hr & ->).
    apply (rounds_iterations _ _ _ _ _ _ _ _
             (fun i s t => proj1 (fixed_point_body_events fv tol i s t)) Hr).
  - rewrite Newton_Raphson_run in *. fold n in H0 |- *.
    destruct (for_range_exhausted n 0 _ p_0 _ []
                (Newton_body_not_ConvergenceError f fp tol) H0)
      as (s' & t' & w & Hr & ->).
    apply (rounds_iterations _ _ _ _ _ _ _ _
             (fun i s t => proj1 (Newton_body_events f fp tol i s t)) Hr).
  - rewrite Newton_Raphson_run in *. fold n in H0 |- *.
    destruct (for_range_exhausted n 0 _ p_0 _ []
                (Newton_body_not_ConvergenceError f fp tol) H0)
      as (s' & t' & w & Hr & ->).
    apply (Newton_rounds_rows _ _ _ _ _ _ _ _ _ _ Hr).
  - rewrite Secante_run in *. cbn zeta in *. fold n in H0 |- *.
    destruct (for_range_exhausted n 0 _ _ _ _
                (Secante_body_not_ConvergenceError f tol) H0)
      as (s' & t' & w & Hr & ->).
    apply (rounds_iterations _ _ _ _ _ _ _ _
             (fun i s t => proj1 (Secante_body_events f tol i s t)) Hr).
  - rewrite Secante_run in *. cbn zeta in *. fold n in H0 |- *.
    destruct (for_range_exhausted n 0 _ _ _ _
                (Secante_body_not_ConvergenceError f tol) H0)
      as (s' & t' & w & Hr & ->).
    cbn. rewrite (Secante_rounds_rows _ _ _ _ _ _ _ _ _ Hr). reflexivity.
  - unfold steffensen. fold n. intros Hout.
    destruct (for_range_exhausted n 0 _ p_0 _ t
                (steffensen_body_not_ConvergenceError f tol) Hout)
      as (s' & t' & w & Hr & ->).
    apply (rounds_iterations _ _ _ _ _ _ _ _
             (fun i s t => proj1 (steffensen_body_events f tol i s t)) Hr).
Qed.

End Failures.

Lemma convergence_failure_uses_the_budget_witness :
  iterations (events (fixed_point_iteration plus_one [0%float] tol_default 50 []))
    = Z.to_nat 50 /\
  (iterations (events (Newton_Raphson parabola parabola' 3%float tol_default 2 []))
     = Z.to_nat 2 /\
   length (final_table (Newton_Raphson parabola parabola' 3%float tol_default 2 []))
     = Z.to_nat 2) /\
  (iterations (events (Secante parabola 3%float 4%float tol_default 2 []))
     = Z.to_nat 2 /\
   length (final_table (Secante parabola 3%float 4%float tol_default 2 []))
     = (2 + Z.to_nat 2)%nat) /\
  iterations (events (steffensen parabola 3%float tol_default 1 [])) = Z.to_nat 1.
Proof.
  split; [|split; [|split]].
  - apply (convergence_failure_uses_the_budget plus_one parabola parabola'
             [0%float] 3%float 4%float tol_default 50 []).
    vm_compute. reflexivity.
  - apply (convergence_failure_uses_the_budget plus_one parabola parabola'
             [0%float] 3%float 4%float tol_default 2 []).
    vm_compute. reflexivity.
  - apply (convergence_failure_uses_the_budget plus_one parabola parabola'
             [0%float] 3%float 4%float tol_default 2 []).
    vm_compute. reflexivity.
  - apply (convergence_failure_uses_the_budget plus_one parabola parabola'
             [0%float] 3%float 4%float tol_default 1 []).
    vm_compute. reflexivity.
Defined.

(** ** A larger budget *)

Section LargerBudget.
Context {num : Type} `{Number num}.
Implicit Types (f fp : num -> num) (fv : list num -> list num).
Implicit Types (x p tol : num) (xs : list num) (t : table num).

(** A loop that ended before its budget was used up ends the same way with
    any larger budget. *)
Lemma for_range_larger_budget {S A} n m i
    (body : Z -> S -> Py num (flow S A)) s e0 t :
  (forall i s t, outcome (body i s t) <> Raised e0) ->
  outcome (for_range n i body s (raise e0) t) <> Raised e0 ->
  (n <= m)%nat ->
  for_range m i body s (raise e0) t = for_range n i body s (raise e0) t.
Proof.
  intros Hb Hout Hle.
  destruct (for_range_ends n i body s (raise e0) t)
    as [(s' & t' & w & Hr & Hrun)
       |[(k & s' & t' & w & a & t'' & w' & Hk & Hr & Hbk & Hrun)
        |(k & s' & t' & w & e' & t'' & w' & Hk & Hr & Hbk & Hrun)]].
  - exfalso. apply Hout. now rewrite Hrun.
  - rewrite Hrun.
    replace m with (k + Datatypes.S (m - k - 1))%nat by lia.
    rewrite (for_range_rounds k _ _ _ _ (raise e0) _ _ _ _ Hr).
    now rewrite for_range_S, Hbk.
  - rewrite Hrun.
    replace m with (k + Datatypes.S (m - k - 1))%nat by lia.
    rewrite (for_range_rounds k _ _ _ _ (raise e0) _ _ _ _ Hr).
    now rewrite for_range_S, Hbk.
Qed.

(** X2.  A call that ends otherwise than by the convergence failure
    (it returns, or it raises another exception) ends in the very same way
    with any larger budget: same value, same table, same events.  Only the
    convergence failure depends on how large [max_iter] is. *)
Theorem larger_budget_same_run fv f fp xs p_0 p_1 tol (max_iter max_iter' : Z) t :
  max_iter <= max_iter' ->
  (outcome (fixed_point_iteration fv xs tol max_iter t) <> Raised ConvergenceError ->
   fixed_point_iteration fv xs tol max_iter' t =
   fixed_point_iteration fv xs tol max_iter t) /\
  (outcome (Newton_Raphson f fp p_0 tol max_iter t) <> Raised ConvergenceError ->
   Newton_Raphson f fp p_0 tol max_iter' t =
   Newton_Raphson f fp p_0 tol max_iter t) /\
  (outcome (Secante f p_0 p_1 tol max_iter t) <> Raised ConvergenceError ->
   Secante f p_0 p_1 tol max_iter' t = Secante f p_0 p_1 tol max_iter t) /\
  (outcome (steffensen f p_0 tol max_iter t) <> Raised ConvergenceError ->
   steffensen f p_0 tol max_iter' t = steffensen f p_0 tol max_iter t).
Proof.
  intros Hle.
  assert (Z.to_nat max_iter <= Z.to_nat max_iter')%nat as Hn by lia.
  split; [|split; [|split]]; intros Hout.
  - apply for_range_larger_budget;
      [apply fixed_point_body_not_ConvergenceError | exact Hout | exact Hn].
  - rewrite !Newton_Raphson_run in *.
    apply for_range_larger_budget;
      [apply Newton_body_not_ConvergenceError | exact Hout | exact Hn].
  - rewrite !Secante_run in *. cbn zeta in *.
    rewrite for_range_larger_budget with (n := Z.to_nat max_iter);
      [reflexivity | apply Secante_body_not_ConvergenceError | exact Hout | exact Hn].
  - apply for_range_larger_budget;
      [apply steffensen_body_not_ConvergenceError | exact Hout | exact Hn].
Qed.

End LargerBudget.

Lemma larger_budget_same_run_witness :
  fixed_point_iteration half_plus_one [1%float] tol_default 1000 [] =
  fixed_point_iteration half_plus_one [1%float] tol_default 16 [] /\
  Newton_Raphson parabola parabola' 3%float tol_default 1000 [] =
  Newton_Raphson parabola parabola' 3%float tol_default 5 [] /\
  Secante identity 1%float 2%float tol_default 1000 [] =
  Secante identity 1%float 2%float tol_default 2 [] /\
  steffensen half_plus_one_scalar 1%float tol_default 100 [] =
  steffensen half_plus_one_scalar 1%float tol_default 2 [].
Proof.
  split; [|split; [|split]].
  - apply (larger_budget_same_run half_plus_one parabola parabola'
             [1%float] 3%float 4%float tol_default 16 1000 []); [lia|].
    vm_compute. discriminate.
  - apply (larger_budget_same_run half_plus_one parabola parabola'
             [1%float] 3%float 4%float tol_default 5 1000 []); [lia|].
    vm_compute. discriminate.
  - apply (larger_budget_same_run half_plus_one identity parabola'
             [1%float] 1%float 2%float tol_default 2 1000 []); [lia|].
    vm_compute. discriminate.
  - apply (larger_budget_same_run half_plus_one half_plus_one_scalar parabola'
             [1%float] 1%float 2%float tol_default 2 100 []); [lia|].
    vm_compute. discriminate.
Defined.

(** ** What a returned value is *)

Section Returned.
Context {num : Type} `{Number num}.
Implicit Types (f fp : num -> num) (x p tol : num) (t : table num).

Lemma Newton_rounds_point f fp tol k : forall i p t p' t' w,
  rounds k i (Newton_body f fp tol) p t = Some (p', t', w) ->
  p' = Nat.iter k (Newton_step f fp) p.
Proof.
  induction k as [|k IH]; intros i p t p' t' w Hr.
  - cbn in Hr. now injection Hr as <- _ _.
  - cbn [rounds] in Hr. rewrite Newton_body_cases in Hr. cbn zeta in Hr.
    rewrite Nat.iter_succ_r.
    destruct (eqb (fp p) zero); [discriminate|].
    destruct (ltb _ tol); [destruct (eqb (abs _) zero); discriminate|].
    destruct (rounds k _ _ _ _) as [[[s2 t2] w2]|] eqn:Hr2; [|discriminate].
    injection Hr as <- _ _. exact (IH _ _ _ _ _ _ Hr2).
Qed.

Lemma Secante_rounds_points f tol k : forall i a b t s' t' w,
  rounds k i (Secante_body f tol) (a, f a, b, f b) t = Some (s', t', w) ->
  let ab := Nat.iter k (Secante_shift f) (a, b) in
  s' = (ab.1, f ab.1, ab.2, f ab.2).
Proof.
  induction k as [|k IH]; intros i a b t s' t' w Hr.
  - cbn in Hr. now injection Hr as <- _ _.
  - cbn [rounds] in Hr. rewrite Secante_body_cases in Hr. cbn zeta in Hr.
    rewrite Nat.iter_succ_r.
    destruct (eqb (sub (f b) (f a)) zero); [discriminate|].
    destruct (ltb _ tol); [destruct (eqb (abs _) zero); discriminate|].
    destruct (rounds k _ _ _ _) as [[[s2 t2] w2]|] eqn:Hr2; [|discriminate].
    injection Hr as <- _ _. exact (IH _ _ _ _ _ _ _ Hr2).
Qed.

(** One round of Steffensen on Python floats, case by case, for the square
    [pow2] that [** 2] computes. *)
Lemma steffensen_body_with_cases (pow2 : num -> num) f tol i x t :
  steffensen_body_with (py_pow2_with pow2) py_div f tol i x t =
  let d := denominator_of x (f x) (f (f x)) in
  let calls := [CallF x; CallF (f x)] in
  if ltb (abs d) tol then
    (Returned (Return None), t,
     calls ++ [PrintMsg "Denominator too small. Method might not converge."])
  else if isfinite (sub (f x) x) && negb (isfinite (pow2 (sub (f x) x))) then
    (Raised OverflowError, t, calls)
  else if eqb d zero then (Raised ZeroDivisionError, t, calls)
  else
    let x_new := steffensen_step_with pow2 f x in
    if ltb (abs (sub x_new x)) tol then (Returned (Return (Some x_new)), t, calls)
    else (Returned (Continue x_new), t, calls).
Proof.
  unfold steffensen_body_with, steffensen_step_with, py_pow2_with.
  py_unfold. cbn zeta.
  destruct (ltb (abs _) tol); cbn; [reflexivity|].
  destruct (isfinite (sub (f x) x) && _); cbn; [reflexivity|].
  destruct (eqb _ zero); cbn; [reflexivity|].
  destruct (ltb _ tol); reflexivity.
Qed.

Lemma steffensen_with_rounds_point (pow2 : num -> num) f tol k :
  forall i x t x' t' w,
  rounds k i (steffensen_body_with (py_pow2_with pow2) py_div f tol) x t
    = Some (x', t', w) ->
  x' = Nat.iter k (steffensen_step_with pow2 f) x.
Proof.
  induction k as [|k IH]; intros i x t x' t' w Hr.
  - cbn in Hr. now injection Hr as <- _ _.
  - cbn [rounds] in Hr. rewrite steffensen_body_with_cases in Hr.
    cbn zeta in Hr. rewrite Nat.iter_succ_r.
    destruct (ltb (abs (denominator_of _ _ _)) tol); [discriminate|].
    destruct (isfinite _ && _); [discriminate|].
    destruct (eqb _ zero); [discriminate|].
    destruct (ltb _ tol); [discriminate|].
    destruct (rounds k _ _ _ _) as [[[s2 t2] w2]|] eqn:Hr2; [|discriminate].
    injection Hr as <- _ _. exact (IH _ _ _ _ _ _ Hr2).
Qed.

(** X3.  On Python floats ([p_0] and the values of [f] and [fp] are of
    Python's own [float], so that lines 84 and 88 divide with [py_div]): a
    value [r] returned by Newton-Raphson is one Newton step
    [p - f(p) / fp(p)] from the iterate [p] of some round within the budget
    (itself reached by Newton steps from [p_0]), with [fp(p)] not zero and
    [|r - p| < TOL]; its absolute value is not zero, so an exact root [0.0]
    is never returned; and the last row of the table is [(k, r, f(r))],
    after one row for each earlier round.  (With [numpy.float64] values
    the root [0.0] is returned: see [numpy_values_raise_nothing].) *)
Theorem Newton_returns_a_small_step f fp p_0 tol (N_0 : Z) t r :
  outcome (Newton_Raphson f fp p_0 tol N_0 t) = Returned r ->
  exists k, (k < Z.to_nat N_0)%nat /\
    let p := Nat.iter k (Newton_step f fp) p_0 in
    eqb (fp p) zero = false /\
    r = Newton_step f fp p /\
    ltb (abs (sub r p)) tol = true /\
    eqb (abs r) zero = false /\
    exists rows,
      final_table (Newton_Raphson f fp p_0 tol N_0 t)
        = rows ++ [(Z.of_nat k, r, f r)] /\
      length rows = k.
Proof.
  rewrite Newton_Raphson_run. intros Hout.
  destruct (for_range_ends (Z.to_nat N_0) 0 (Newton_body f fp tol) p_0
              (raise ConvergenceError) [])
    as [(s' & t' & w & Hr & Hrun)
       |[(k & s' & t' & w & a & t'' & w' & Hk & Hr & Hbk & Hrun)
        |(k & s' & t' & w & e' & t'' & w' & Hk & Hr & Hbk & Hrun)]];
    rewrite Hrun in Hout |- *; cbn in Hout; try discriminate.
  injection Hout as ->. exists k. split; [exact Hk|]. cbn zeta.
  rewrite <- (Newton_rounds_point _ _ _ _ _ _ _ _ _ _ Hr).
  pose proof (Newton_rounds_rows _ _ _ _ _ _ _ _ _ _ Hr) as Hlen.
  rewrite Newton_body_cases in Hbk. cbn zeta in Hbk.
  destruct (eqb (fp s') zero) eqn:Hfp; [discriminate|].
  destruct (ltb (abs (sub (Newton_step f fp s') s')) tol) eqn:Hsmall;
    [|discriminate].
  destruct (eqb (abs (Newton_step f fp s')) zero) eqn:Hzero; [discriminate|].
  injection Hbk as <- <- _.
  split; [reflexivity|]. split; [reflexivity|].
  split; [exact Hsmall|]. split; [exact Hzero|].
  exists t'. rewrite Z.add_0_l. split; [reflexivity | exact Hlen].
Qed.

(** X4.  On Python floats ([p_0], [p_1] and the values of [f] are of
    Python's own [float], so that lines 133 and 137 divide with [py_div]):
    a value [r] returned by the secant method is one secant step from the
    two points [(a, b)] kept in some round within the budget (reached from
    [(p_0, p_1)] by shifting), with [f(b) - f(a)] not zero and
    [|r - b| < TOL]; its absolute value is not zero; and the last row of
    the table is [(k, r, f(r))], after the two rows of the starting points
    and one row for each earlier round.  (With [numpy.float64] values
    the root [0.0] is returned: see [numpy_values_raise_nothing].) *)
Theorem Secante_returns_a_small_step f p_0 p_1 tol (N_0 : Z) t r :
  outcome (Secante f p_0 p_1 tol N_0 t) = Returned r ->
  exists k, (k < Z.to_nat N_0)%nat /\
    let ab := Nat.iter k (Secante_shift f) (p_0, p_1) in
    eqb (sub (f ab.2) (f ab.1)) zero = false /\
    r = Secante_step ab.1 (f ab.1) ab.2 (f ab.2) /\
    ltb (abs (sub r ab.2)) tol = true /\
    eqb (abs r) zero = false /\
    exists rows,
      final_table (Secante f p_0 p_1 tol N_0 t)
        = (0, p_0, f p_0) :: (1, p_1, f p_1) :: rows ++ [(Z.of_nat k, r, f r)] /\
      length rows = k.
Proof.
  rewrite Secante_run. cbn zeta. intros Hout.
  destruct (for_range_ends (Z.to_nat N_0) 0 (Secante_body f tol)
              (p_0, f p_0, p_1, f p_1) (raise ConvergenceError)
              [(0, p_0, f p_0); (1, p_1, f p_1)])
    as [(s' & t' & w & Hr & Hrun)
       |[(k & s' & t' & w & a & t'' & w' & Hk & Hr & Hbk & Hrun)
        |(k & s' & t' & w & e' & t'' & w' & Hk & Hr & Hbk & Hrun)]];
    rewrite Hrun in Hout |- *; cbn in Hout; try discriminate.
  injection Hout as ->. exists k. split; [exact Hk|].
  pose proof (Secante_rounds_points _ _ _ _ _ _ _ _ _ _ Hr) as Hs.
  cbn zeta in Hs |- *.
  pose proof (Secante_rounds_rows _ _ _ _ _ _ _ _ _ Hr) as Hlen.
  set (ab := Nat.iter k (Secante_shift f) (p_0, p_1)) in *. subst s'.
  rewrite Secante_body_cases in Hbk. cbn zeta in Hbk.
  destruct (eqb (sub (f ab.2) (f ab.1)) zero) eqn:Hden; [discriminate|].
  destruct (ltb (abs (sub (Secante_step ab.1 (f ab.1) ab.2 (f ab.2)) ab.2)) tol)
    eqn:Hsmall; [|discriminate].
  destruct (eqb (abs (Secante_step ab.1 (f ab.1) ab.2 (f ab.2))) zero)
    eqn:Hzero; [discriminate|].
  injection Hbk as <- <- _.
  split; [reflexivity|]. split; [reflexivity|].
  split; [exact Hsmall|]. split; [exact Hzero|].
  rewrite Z.add_0_l.
  assert (exists rows, t' = (0, p_0, f p_0) :: (1, p_1, f p_1) :: rows /\
                       length rows = k) as (rows & -> & Hrows).
  { clear -Hr Hlen. revert Hr Hlen.
    generalize (p_0, f p_0, p_1, f p_1) as s0.
    assert (forall j i s0 (t0 : table num) s1 t1 w1,
              rounds j i (Secante_body f tol) s0 t0 = Some (s1, t1, w1) ->
              exists rows, t1 = t0 ++ rows) as Hprefix.
    { induction j as [|j IH]; intros i s0 t0 s1 t1 w1 Hj.
      - cbn in Hj. injection Hj as _ <- _. exists []. now rewrite app_nil_r.
      - cbn [rounds] in Hj. destruct s0 as [[[a0 b0] c0] d0].
        rewrite Secante_body_cases in Hj. cbn zeta in Hj.
        destruct (eqb (sub d0 b0) zero); [discriminate|].
        destruct (ltb _ tol); [destruct (eqb (abs _) zero); discriminate|].
        destruct (rounds j _ _ _ _) as [[[s2 t2] w2]|] eqn:Hj2; [|discriminate].
        injection Hj as _ <- _. destruct (IH _ _ _ _ _ _ Hj2) as [rows ->].
        eexists. now rewrite <- app_assoc. }
    intros s0 Hr Hlen. destruct (Hprefix _ _ _ _ _ _ _ Hr) as [rows ->].
    exists rows. split; [reflexivity|]. rewrite length_app in Hlen. cbn in Hlen.
    injection Hlen as Hlen. exact Hlen. }
  exists rows. split; [reflexivity | exact Hrows].
Qed.

(** X5.  What Steffensen returns, on Python floats ([x0] and the values of
    [f] are of Python's own [float]) and whatever the square [pow2] that
    the C library computes for [** 2] on line 186.  A number [r] is one
    Steffensen step [x - (f(x) - x)**2 / d], with that square, from the
    iterate [x] of some round within the budget (itself reached by such
    steps from [x0]), where the denominator [d = f(f(x)) - 2 * f(x) + x] is
    not smaller than [tol] in absolute value and not zero, the square did
    not overflow, and [|r - x| < tol].  [None] means that in some round
    within the budget the denominator at the iterate was smaller than
    [tol] in absolute value. *)
Theorem steffensen_returns (pow2 : num -> num) f x0 tol (max_iter : Z) t :
  let run := steffensen_with (py_pow2_with pow2) py_div f x0 tol max_iter t in
  let step := steffensen_step_with pow2 f in
  (forall r,
     outcome run = Returned (Some r) ->
     exists k, (k < Z.to_nat max_iter)%nat /\
       let x := Nat.iter k step x0 in
       let d := denominator_of x (f x) (f (f x)) in
       ltb (abs d) tol = false /\ eqb d zero = false /\
       isfinite (sub (f x) x) && negb (isfinite (pow2 (sub (f x) x))) = false /\
       r = step x /\ ltb (abs (sub r x)) tol = true) /\
  (outcome run = Returned None ->
   exists k, (k < Z.to_nat max_iter)%nat /\
     let x := Nat.iter k step x0 in
     ltb (abs (denominator_of x (f x) (f (f x)))) tol = true).
Proof.
  cbn zeta. unfold steffensen_with.
  destruct (for_range_ends (Z.to_nat max_iter) 0
              (steffensen_body_with (py_pow2_with pow2) py_div f tol) x0
              (raise ConvergenceError) t)
    as [(s' & t' & w & Hr & Hrun)
       |[(k & s' & t' & w & a & t'' & w' & Hk & Hr & Hbk & Hrun)
        |(k & s' & t' & w & e' & t'' & w' & Hk & Hr & Hbk & Hrun)]];
    rewrite Hrun; unfold outcome; cbn [fst];
    try (split; [intros r|]; discriminate).
  pose proof (steffensen_with_rounds_point _ _ _ _ _ _ _ _ _ _ Hr) as ->.
  rewrite steffensen_body_with_cases in Hbk. cbn zeta in Hbk.
  set (x := Nat.iter k (steffensen_step_with pow2 f) x0) in *.
  destruct (ltb (abs (denominator_of x (f x) (f (f x)))) tol) eqn:Hd.
  - injection Hbk as <- _ _. split; [intros r; discriminate|].
    intros _. exists k. split; [exact Hk | exact Hd].
  - destruct (isfinite (sub (f x) x) && negb (isfinite (pow2 (sub (f x) x))))
      eqn:Hsq; [discriminate|].
    destruct (eqb (denominator_of x (f x) (f (f x))) zero) eqn:Hz;
      [discriminate|].
    destruct (ltb (abs (sub (steffensen_step_with pow2 f x) x)) tol) eqn:Hclose;
      [|discriminate].
    injection Hbk as <- _ _. split; [|discriminate].
    intros r [= <-]. exists k. split; [exact Hk|].
    split; [exact Hd|]. split; [exact Hz|]. split; [exact Hsq|].
    split; [reflexivity | exact Hclose].
Qed.

End Returned.

Lemma Newton_returns_a_small_step_witness :
  outcome (Newton_Raphson parabola parabola' 3%float tol_default 1000 [])
    = Returned 2%float /\
  exists k, (k < Z.to_nat 1000)%nat /\
    let p := Nat.iter k (Newton_step parabola parabola') 3%float in
    eqb (parabola' p) zero = false /\
    2%float = Newton_step parabola parabola' p /\
    ltb (abs (sub 2%float p)) tol_default = true /\
    eqb (abs 2%float) zero = false /\
    exists rows,
      final_table (Newton_Raphson parabola parabola' 3%float tol_default 1000 [])
        = rows ++ [(Z.of_nat k, 2%float, parabola 2)] /\
      length rows = k.
Proof.
  split; [vm_compute; reflexivity|].
  apply (Newton_returns_a_small_step parabola parabola' 3%float tol_default 1000 []).
  vm_compute. reflexivity.
Defined.

Lemma Secante_returns_a_small_step_witness :
  outcome (Secante parabola 2%float 3%float tol_default 1000 [])
    = Returned 2%float /\
  exists k, (k < Z.to_nat 1000)%nat /\
    let ab := Nat.iter k (Secante_shift parabola) (2%float, 3%float) in
    eqb (sub (parabola ab.2) (parabola ab.1)) zero = false /\
    2%float = Secante_step ab.1 (parabola ab.1) ab.2 (parabola ab.2) /\
    ltb (abs (sub 2%float ab.2)) tol_default = true /\
    eqb (abs 2%float) zero = false /\
    exists rows,
      final_table (Secante parabola 2%float 3%float tol_default 1000 [])
        = (0, 2%float, parabola 2) :: (1, 3%float, parabola 3)
          :: rows ++ [(Z.of_nat k, 2%float, parabola 2)] /\
      length rows = k.
Proof.
  split; [vm_compute; reflexivity|].
  apply (Secante_returns_a_small_step parabola 2%float 3%float tol_default 1000 []).
  vm_compute. reflexivity.
Defined.

Lemma steffensen_returns_witness :
  (exists k, (k < Z.to_nat 100)%nat /\
     let x := Nat.iter k (steffensen_step_with square parabola) 3%float in
     let d := denominator_of x (parabola x) (parabola (parabola x)) in
     ltb (abs d) tol_default = false /\ eqb d zero = false /\
     isfinite (sub (parabola x) x)
       && negb (isfinite (square (sub (parabola x) x))) = false /\
     2.5615528128093081%float = steffensen_step_with square parabola x /\
     ltb (abs (sub 2.5615528128093081%float x)) tol_default = true) /\
  (exists k, (k < Z.to_nat 100)%nat /\
     let x := Nat.iter k (steffensen_step_with square half_plus_one_scalar)
                1%float in
     ltb (abs (denominator_of x (half_plus_one_scalar x)
                 (half_plus_one_scalar (half_plus_one_scalar x))))
         tol_default = true).
Proof.
  split.
  - apply (proj1 (steffensen_returns square parabola 3%float tol_default 100 [])).
    vm_compute. reflexivity.
  - apply (proj2 (steffensen_returns square half_plus_one_scalar 1%float
                    tol_default 100 [])).
    vm_compute. reflexivity.
Defined.

(** ** Which exceptions *)

Section Exceptions.
Context {num : Type} `{Number num}.
Implicit Types (f fp : num -> num) (fv : list num -> list num).
Implicit Types (x p tol : num) (xs : list num) (t : table num).

(** X6.  Fixed-point iteration with an [f] that keeps the length of its
    argument returns an array or fails with the convergence [ValueError]:
    it fails in no other way, since the closeness test never meets arrays
    that do not broadcast. *)
Theorem fixed_point_same_length_raises_only_convergence
    fv xs tol (max_iter : Z) t :
  (forall ys : list num, length (fv ys) = length ys) ->
  let r := fixed_point_iteration fv xs tol max_iter t in
  (exists v, outcome r = Returned v) \/ outcome r = Raised ConvergenceError.
Proof.
  intros Hlen r.
  destruct (outcome r) as [v|e] eqn:Hout; [left; eauto | right].
  destruct (for_range_raises _ _ _ _ _ _ _ Hout)
    as [-> | (i' & s' & t' & Hb)]; [reflexivity|].
  rewrite fixed_point_body_spec in Hb. unfold np_allclose, broadcast in Hb.
  rewrite Hlen, Nat.eqb_refl in Hb.
  destruct (forallb _ _); discriminate.
Qed.


End Exceptions.

Lemma plus_one_keeps_length (x : list float) : length (plus_one x) = length x.
Proof. unfold plus_one. apply length_map. Qed.

Lemma fixed_point_same_length_raises_only_convergence_witness :
  (exists v, outcome (fixed_point_iteration plus_one [0%float] tol_default 50 [])
               = Returned v) \/
  outcome (fixed_point_iteration plus_one [0%float] tol_default 50 [])
    = Raised ConvergenceError.
Proof.
  apply (fixed_point_same_length_raises_only_convergence
           plus_one [0%float] tol_default 50 []).
  exact plus_one_keeps_length.
Defined.

(** An [f] that changes the length makes the call fail in its first round
    with the [ValueError] of numpy's broadcasting. *)
Example fixed_point_changing_length :
  outcome (fixed_point_iteration (fun x => x ++ x) [1%float; 2%float]
             tol_default 1000 []) = Raised BroadcastError.
Proof. vm_compute. reflexivity. Qed.

(** ** The guard of Steffensen *)

Section Guard.
Context {num : Type} `{ZeroLaws num}.
Implicit Types (f : num -> num) (x tol : num) (t : table num).


End Guard.


(** Without a positive tolerance the guard lets a zero denominator through:
    [steffensen(lambda x: x, 3.0, tol=0.0)] raises [ZeroDivisionError]. *)
Example steffensen_zero_tolerance_divides_by_zero :
  outcome (steffensen identity 3%float 0%float 100 []) = Raised ZeroDivisionError.
Proof. vm_compute. reflexivity. Qed.

(** ** The table after a run *)

Section Tables.
Context {num : Type} `{Number num}.
Implicit Types (f fp : num -> num) (x p tol : num) (t : table num).

Lemma rows_from_snoc f (t : table num) : forall start k p,
  rows_from f start t ->
  k = start + Z.of_nat (length t) ->
  rows_from f start (t ++ [(k, p, f p)]).
Proof.
  induction t as [|[[i q] v] t IH]; intros start k p Ht Hk.
  - cbn in *. repeat split. lia.
  - cbn [rows_from app] in *. destruct Ht as (-> & -> & Ht).
    repeat split. apply IH; [exact Ht|].
    cbn [length] in Hk. unfold row, table in *. lia.
Qed.

(** What holds of the table before a loop, is kept by the rounds that fall
    through and implies [Q] whenever a round ends the loop, gives [Q] of
    the table the loop leaves. *)
Lemma for_range_table {S A} (P : Z -> table num -> Prop) (Q : table num -> Prop)
    n (body : Z -> S -> Py num (flow S A)) e0 : forall i s t,
  (forall i s t r t' w,
     P i t -> body i s t = (r, t', w) ->
     match r with
     | Returned (Continue _) => P (i + 1) t'
     | _ => Q t'
     end) ->
  (forall i t, P i t -> Q t) ->
  P i t ->
  Q (final_table (for_range n i body s (raise e0) t)).
Proof.
  induction n as [|n IH]; intros i s t Hstep HPQ HP.
  - cbn. eauto.
  - rewrite for_range_S. pose proof (Hstep i s t) as Hs.
    destruct (body i s t) as [[[[s1|a]|e] t1] w1].
    + specialize (Hs _ _ _ HP eq_refl). cbn in Hs.
      exact (IH _ _ _ Hstep HPQ Hs).
    + exact (Hs _ _ _ HP eq_refl).
    + exact (Hs _ _ _ HP eq_refl).
Qed.

(** X9.  The table is a faithful trace, however the call ends.  After
    Newton-Raphson every row is [(i, p, f(p))] for the round [i] that added
    it, rounds counted from 0.  After the secant method the table starts
    with the rows [(0, p_0, f(p_0))] and [(1, p_1, f(p_1))] of the starting
    points, and the rows of the rounds follow, again numbered from 0 (the
    loop variable replaces the [i = 2] of line 131). *)
Theorem tables_hold_the_rounds f fp p_0 p_1 tol (max_iter : Z) t :
  rows_from f 0 (final_table (Newton_Raphson f fp p_0 tol max_iter t)) /\
  exists rows,
    final_table (Secante f p_0 p_1 tol max_iter t)
      = (0, p_0, f p_0) :: (1, p_1, f p_1) :: rows /\
    rows_from f 0 rows.
Proof.
  split.
  - rewrite Newton_Raphson_run.
    apply (for_range_table
             (fun i t => rows_from f 0 t /\ Z.of_nat (length t) = i)
             (rows_from f 0)); [| tauto | now split].
    intros i s t0 r t' w [Hrows Hlen] Hb.
    rewrite Newton_body_cases in Hb. cbn zeta in Hb.
    pose proof (rows_from_snoc f t0 0 i (Newton_step f fp s) Hrows
                  ltac:(unfold row, table in *; lia)) as Hsnoc.
    repeat match type of Hb with context [if ?b then _ else _] => destruct b end;
      injection Hb as <- <- _; try assumption.
    split; [assumption|]. rewrite length_app. cbn. lia.
  - rewrite Secante_run. cbn zeta.
    change (final_table (outcome ?r, final_table ?r, ?w)) with (final_table r).
    apply (for_range_table
             (fun i t => exists rows,
                t = (0, p_0, f p_0) :: (1, p_1, f p_1) :: rows /\
                rows_from f 0 rows /\ Z.of_nat (length rows) = i)
             (fun t => exists rows,
                t = (0, p_0, f p_0) :: (1, p_1, f p_1) :: rows /\
                rows_from f 0 rows)).
    + intros i [[[a qa] b] qb] t0 r t' w (rows & -> & Hrows & Hlen) Hb.
      rewrite Secante_body_cases in Hb. cbn zeta in Hb.
      pose proof (rows_from_snoc f rows 0 i (Secante_step a qa b qb) Hrows
                    ltac:(unfold row, table in *; lia)) as Hsnoc.
      repeat match type of Hb with context [if ?b then _ else _] => destruct b end;
        injection Hb as <- <- _; eauto.
      eexists. split; [reflexivity|]. split; [exact Hsnoc|].
      rewrite length_app. cbn. unfold row, table in *. lia.
    + intros i t0 (rows & -> & Hrows & _). eauto.
    + exists []. now repeat split.
Qed.

End Tables.

(** ** An [f] that works in place *)

Section InPlace.
Context {num : Type} `{Number num}.
Implicit Types (h : gmap positive (list num)) (fv : list num -> list num).

(** X10.  With an [f] that updates the array it is given in place and
    hands that array back, fixed-point iteration returns in its first
    round, whatever the tolerance and however far [x0] is from a fixed
    point: the new iterate is a copy of the very array it is compared
    with.  The array returned holds [f(x0)]; [x0] itself is unchanged. *)
Theorem fixed_point_in_place_returns_at_once fv x0 tol (max_iter : Z) h xs :
  h !! x0 = Some xs ->
  forallb (fun c => eqb c c) (fv xs) = true ->
  0 < max_iter ->
  let run := store_fixed_point_iteration (update_in_place fv) x0 tol max_iter h in
  exists l, run.1 = Returned l /\
    run.2 !! l = Some (fv xs) /\ run.2 !! x0 = Some xs.
Proof.
  intros Hx0 Hnan Hpos run. subst run. unfold store_fixed_point_iteration.
  pose proof (np_array_contents x0 h) as Hc.
  pose proof (np_array_frame x0 h x0 ltac:(eauto)) as Hf.
  pose proof (np_array_fresh x0 h) as Hnew.
  destruct (np_array x0 h) as [x h0]. cbn [fst snd] in Hc, Hf, Hnew.
  rewrite (lookup_total_correct _ _ _ Hx0) in Hc.
  assert (x <> x0) as Hne by (intros ->; congruence).
  destruct (Z.to_nat max_iter) as [|n] eqn:Hn; [lia|].
  cbn [store_fixed_point_loop]. unfold update_in_place.
  rewrite (lookup_total_correct _ _ _ Hc).
  set (h1 := <[x := fv xs]> h0).
  assert (h1 !! x = Some (fv xs)) as Hx1 by apply lookup_insert_eq.
  assert (h1 !! x0 = Some xs) as Hx01.
  { unfold h1. rewrite lookup_insert_ne by exact Hne. now rewrite Hf. }
  pose proof (np_array_contents x h1) as Hc2.
  pose proof (np_array_frame x h1 x ltac:(eauto)) as Hfx.
  pose proof (np_array_frame x h1 x0 ltac:(eauto)) as Hfx0.
  destruct (np_array x h1) as [x_new h2]. cbn [fst snd] in Hc2, Hfx, Hfx0.
  rewrite (lookup_total_correct _ _ _ Hx1) in Hc2.
  rewrite Hx1 in Hfx. rewrite Hx01 in Hfx0.
  rewrite (lookup_total_correct _ _ _ Hc2), (lookup_total_correct _ _ _ Hfx).
  rewrite (np_allclose_same _ tol Hnan). cbn.
  exists x_new. repeat split; assumption.
Qed.

End InPlace.

Lemma fixed_point_in_place_returns_at_once_witness :
  exists l,
    (store_fixed_point_iteration (update_in_place plus_one) 1%positive
       tol_default 50 {[ 1%positive := [0%float] ]}).1 = Returned l /\
    (store_fixed_point_iteration (update_in_place plus_one) 1%positive
       tol_default 50 {[ 1%positive := [0%float] ]}).2 !! l
      = Some (plus_one [0%float]) /\
    (store_fixed_point_iteration (update_in_place plus_one) 1%positive
       tol_default 50 {[ 1%positive := [0%float] ]}).2 !! 1%positive
      = Some [0%float].
Proof.
  apply (fixed_point_in_place_returns_at_once plus_one 1%positive tol_default 50
           {[ 1%positive := [0%float] ]} [0%float]).
  - reflexivity.
  - vm_compute. reflexivity.
  - lia.
Defined.

(** ** A tolerance that is not positive *)

Section AbsBinary64.
Local Open Scope float_scope.

Lemma float_abs_not_below x y : (y <=? 0) = true -> (PrimFloat.abs x <? y) = false.
Proof.
  rewrite leb_spec, ltb_spec, FloatAxioms.abs_spec, Prim2SF_zero.
  destruct (Prim2SF y) as [sy|sy| |sy my ey]; cbn; try discriminate;
    destruct (Prim2SF x) as [sx|sx| |sx mx ex]; cbn;
    try reflexivity; destruct sy; cbn; try discriminate; reflexivity.
Qed.

#[export] Instance float_AbsLaws : AbsLaws float.
Proof. split. exact float_abs_not_below. Qed.

End AbsBinary64.

Section AbsRationals.
Local Open Scope Qc_scope.

Lemma Qc_abs_nonneg (x : Qc) : Q2Qc 0 <= Qc_abs x.
Proof.
  unfold Qc_abs, Qc_ltb. destruct (x ?= Q2Qc 0) eqn:Hc.
  - apply Qceq_alt in Hc. rewrite Hc. apply Qcle_refl.
  - apply Qclt_alt in Hc. apply Qclt_le_weak in Hc.
    apply Qcopp_le_compat in Hc. exact Hc.
  - apply Qcgt_alt in Hc. now apply Qclt_le_weak.
Qed.

Lemma Qc_abs_not_below (x y : Qc) :
  Qc_leb y (Q2Qc 0) = true -> Qc_ltb (Qc_abs x) y = false.
Proof.
  unfold Qc_leb, Qc_ltb. intros Hy.
  destruct (Qc_abs x ?= y) eqn:Hc; try reflexivity.
  apply Qclt_alt in Hc. exfalso.
  assert (y <= Q2Qc 0) as Hle.
  { apply Qcle_alt. destruct (y ?= Q2Qc 0); congruence. }
  apply (Qclt_not_le _ _ Hc).
  exact (Qcle_trans _ _ _ Hle (Qc_abs_nonneg x)).
Qed.

#[export] Instance Qc_AbsLaws : AbsLaws Qc.
Proof. split. exact Qc_abs_not_below. Qed.

End AbsRationals.

Section NoTolerance.
Context {num : Type} `{AbsLaws num}.
Implicit Types (f fp : num -> num) (x p tol : num) (t : table num).

(** X11.  With a tolerance that is zero or negative Newton-Raphson, the
    secant method and Steffensen never return, not even from an exact
    root: their tests are strict ([abs(...) < tol]), and no absolute value
    is below such a tolerance.  Every call ends with an exception. *)
Theorem nonpositive_tolerance_never_returns f fp p_0 p_1 tol (max_iter : Z) t :
  leb tol zero = true ->
  (exists e, outcome (Newton_Raphson f fp p_0 tol max_iter t) = Raised e) /\
  (exists e, outcome (Secante f p_0 p_1 tol max_iter t) = Raised e) /\
  (exists e, outcome (steffensen f p_0 tol max_iter t) = Raised e).
Proof.
  intros Htol. split; [|split].
  - rewrite Newton_Raphson_run.
    destruct (for_range_ends (Z.to_nat max_iter) 0 (Newton_body f fp tol) p_0
                (raise ConvergenceError) [])
      as [(s' & t' & w & Hr & Hrun)
         |[(k & s' & t' & w & a & t'' & w' & Hk & Hr & Hbk & Hrun)
          |(k & s' & t' & w & e' & t'' & w' & Hk & Hr & Hbk & Hrun)]];
      rewrite Hrun; cbn; eauto.
    exfalso. rewrite Newton_body_cases in Hbk. cbn zeta in Hbk.
    rewrite (abs_not_below _ _ Htol) in Hbk.
    destruct (eqb (fp s') zero); discriminate.
  - rewrite Secante_run. cbn zeta.
    destruct (for_range_ends (Z.to_nat max_iter) 0 (Secante_body f tol)
                (p_0, f p_0, p_1, f p_1) (raise ConvergenceError)
                [(0, p_0, f p_0); (1, p_1, f p_1)])
      as [(s' & t' & w & Hr & Hrun)
         |[(k & s' & t' & w & a & t'' & w' & Hk & Hr & Hbk & Hrun)
          |(k & s' & t' & w & e' & t'' & w' & Hk & Hr & Hbk & Hrun)]];
      rewrite Hrun; cbn; eauto.
    exfalso. destruct s' as [[[a0 b0] c0] d0].
    rewrite Secante_body_cases in Hbk. cbn zeta in Hbk.
    rewrite (abs_not_below _ _ Htol) in Hbk.
    destruct (eqb (sub d0 b0) zero); discriminate.
  - unfold steffensen.
    destruct (for_range_ends (Z.to_nat max_iter) 0 (steffensen_body f tol) p_0
                (raise ConvergenceError) t)
      as [(s' & t' & w & Hr & Hrun)
         |[(k & s' & t' & w & a & t'' & w' & Hk & Hr & Hbk & Hrun)
          |(k & s' & t' & w & e' & t'' & w' & Hk & Hr & Hbk & Hrun)]];
      rewrite Hrun; cbn; eauto.
    exfalso. rewrite steffensen_body_cases in Hbk. cbn zeta in Hbk.
    rewrite !(abs_not_below _ _ Htol) in Hbk.
    destruct (isfinite _ && _); [discriminate|].
    destruct (eqb _ zero); discriminate.
Qed.

End NoTolerance.

Lemma nonpositive_tolerance_never_returns_witness :
  (exists e, outcome (Newton_Raphson parabola parabola' 2%float 0%float 1000 [])
               = Raised e) /\
  (exists e, outcome (Secante parabola 3%float 2%float 0%float 1000 [])
               = Raised e) /\
  (exists e, outcome (steffensen square 1%float 0%float 100 []) = Raised e).
Proof.
  assert (leb 0%float zero = true) as Htol by (vm_compute; reflexivity).
  split; [|split].
  - exact (proj1 (nonpositive_tolerance_never_returns parabola parabola'
                    2%float 3%float 0%float 1000 [] Htol)).
  - exact (proj1 (proj2 (nonpositive_tolerance_never_returns parabola parabola'
                    3%float 2%float 0%float 1000 [] Htol))).
  - exact (proj2 (proj2 (nonpositive_tolerance_never_returns square parabola'
                    1%float 3%float 0%float 100 [] Htol))).
Defined.

(** From the exact root [2.0] of [x * x - 4] and with [TOL = 0.0]
    Newton-Raphson stays on the root for all its rounds and then fails. *)
Example Newton_zero_tolerance_on_the_root :
  outcome (Newton_Raphson parabola parabola' 2%float 0%float 1000 [])
    = Raised ConvergenceError.
Proof. vm_compute. reflexivity. Qed.

(** ** The round in which a call returns *)

Section FirstRound.
Context {num : Type} `{Number num}.
Implicit Types (f fp : num -> num) (fv : list num -> list num).
Implicit Types (x p tol : num) (xs : list num) (t : table num).

(** X12.  Fixed-point iteration returns in the first round in which
    [np.allclose(x_new, x, atol=tol)] holds: if the test fails between
    [f^(j+1)(x0)] and [f^j(x0)] for every [j < k] and holds for [j = k],
    with [k] within the budget, the call returns [f^(k+1)(x0)] after
    exactly [k + 1] rounds and as many calls of [f], and leaves the table
    alone. *)
Theorem fixed_point_returns_at_first_close fv xs tol (max_iter : Z) t (k : nat) :
  (k < Z.to_nat max_iter)%nat ->
  (forall j, (j < k)%nat ->
     np_allclose (fv (Nat.iter j fv xs)) (Nat.iter j fv xs) tol = Returned false) ->
  np_allclose (fv (Nat.iter k fv xs)) (Nat.iter k fv xs) tol = Returned true ->
  let r := fixed_point_iteration fv xs tol max_iter t in
  outcome r = Returned (fv (Nat.iter k fv xs)) /\
  final_table r = t /\
  iterations (events r) = Datatypes.S k /\
  user_calls (events r) = Datatypes.S k.
Proof.
  unfold fixed_point_iteration.
  generalize (Z.to_nat max_iter) as n. generalize 0 as i. revert xs.
  induction k as [|k IH]; intros xs i n Hk Hnot Hclose;
    (destruct n as [|n]; [lia|]); cbn zeta;
    rewrite for_range_S, fixed_point_body_spec.
  - cbn in Hclose. rewrite Hclose. now repeat split.
  - pose proof (Hnot 0%nat ltac:(lia)) as H0. cbn in H0. rewrite H0.
    destruct (IH (fv xs) (i + 1) n ltac:(lia)) as (Hout & Htab & Hit & Hcalls).
    + intros j Hj. rewrite <- !Nat.iter_succ_r. apply Hnot. lia.
    + now rewrite <- !Nat.iter_succ_r.
    + cbn zeta in Hout, Htab, Hit, Hcalls. rewrite <- !Nat.iter_succ_r in Hout.
      destruct (for_range n (i + 1) _ (fv xs) _ t) as [[r' t'] w'].
      unfold outcome, final_table, events, iterations, user_calls in *.
      cbn in *. repeat split; congruence.
Qed.

Lemma Newton_loop_first_small_step f fp tol k : forall p_0 (t0 : table num) i n,
  (k < n)%nat ->
  (forall j, (j <= k)%nat ->
     eqb (fp (Nat.iter j (Newton_step f fp) p_0)) zero = false) ->
  (forall j, (j < k)%nat ->
     ltb (abs (sub (Nat.iter (Datatypes.S j) (Newton_step f fp) p_0)
                   (Nat.iter j (Newton_step f fp) p_0))) tol = false) ->
  ltb (abs (sub (Nat.iter (Datatypes.S k) (Newton_step f fp) p_0)
                (Nat.iter k (Newton_step f fp) p_0))) tol = true ->
  eqb (abs (Nat.iter (Datatypes.S k) (Newton_step f fp) p_0)) zero = false ->
  let r := for_range n i (Newton_body f fp tol) p_0 (raise ConvergenceError) t0 in
  outcome r = Returned (Nat.iter (Datatypes.S k) (Newton_step f fp) p_0) /\
  iterations (events r) = Datatypes.S k /\
  length (final_table r) = (length t0 + Datatypes.S k)%nat.
Proof.
  induction k as [|k IH]; intros p_0 t0 i n Hk Hfp Hbig Hsmall Hnz;
    (destruct n as [|n]; [lia|]); cbn zeta;
    rewrite for_range_S, Newton_body_cases; cbn zeta;
    pose proof (Hfp 0%nat ltac:(lia)) as Hfp0; cbn in Hfp0; rewrite Hfp0.
  - cbn in Hsmall, Hnz. rewrite Hsmall, Hnz.
    unfold outcome, final_table, events. cbn.
    repeat split. rewrite length_app. reflexivity.
  - pose proof (Hbig 0%nat ltac:(lia)) as Hbig0. cbn in Hbig0. rewrite Hbig0.
    destruct (IH (Newton_step f fp p_0)
                (t0 ++ [(i, Newton_step f fp p_0, f (Newton_step f fp p_0))])
                (i + 1) n ltac:(lia)) as (Hout & Hit & Hlen).
    + intros j Hj. rewrite <- Nat.iter_succ_r. apply Hfp. lia.
    + intros j Hj. rewrite <- !Nat.iter_succ_r. apply Hbig. lia.
    + now rewrite <- !Nat.iter_succ_r.
    + now rewrite <- !Nat.iter_succ_r.
    + cbn zeta in Hout, Hit, Hlen. rewrite <- !Nat.iter_succ_r in Hout.
      destruct (for_range n (i + 1) _ _ _ _) as [[r' t'] w'].
      unfold outcome, final_table, events, iterations in *. cbn in *.
      split; [exact Hout|]. split; [congruence|].
      rewrite Hlen, length_app. cbn. unfold row, table in *. lia.
Qed.

(** X13.  Newton-Raphson returns in the first round whose step is smaller
    than [TOL]: if along the Newton iterates [p_j] from [p_0] the
    derivative is not zero up to [p_k], the steps before round [k] are not
    below [TOL], the step of round [k] is, and the new point is not zero,
    then the call returns that point after exactly [k + 1] rounds, with
    [k + 1] rows in the table. *)
Theorem Newton_returns_at_first_small_step f fp p_0 tol (N_0 : Z) t (k : nat) :
  (k < Z.to_nat N_0)%nat ->
  (forall j, (j <= k)%nat ->
     eqb (fp (Nat.iter j (Newton_step f fp) p_0)) zero = false) ->
  (forall j, (j < k)%nat ->
     ltb (abs (sub (Nat.iter (Datatypes.S j) (Newton_step f fp) p_0)
                   (Nat.iter j (Newton_step f fp) p_0))) tol = false) ->
  ltb (abs (sub (Nat.iter (Datatypes.S k) (Newton_step f fp) p_0)
                (Nat.iter k (Newton_step f fp) p_0))) tol = true ->
  eqb (abs (Nat.iter (Datatypes.S k) (Newton_step f fp) p_0)) zero = false ->
  let r := Newton_Raphson f fp p_0 tol N_0 t in
  outcome r = Returned (Nat.iter (Datatypes.S k) (Newton_step f fp) p_0) /\
  iterations (events r) = Datatypes.S k /\
  length (final_table r) = Datatypes.S k.
Proof.
  intros Hk Hfp Hbig Hsmall Hnz. rewrite Newton_Raphson_run.
  exact (Newton_loop_first_small_step f fp tol k p_0 [] 0 _ Hk Hfp Hbig Hsmall Hnz).
Qed.

End FirstRound.

Lemma fixed_point_returns_at_first_close_witness :
  outcome (fixed_point_iteration half_plus_one [1.75%float] tol_default 1000 [])
    = Returned (half_plus_one (Nat.iter 13 half_plus_one [1.75%float])) /\
  final_table (fixed_point_iteration half_plus_one [1.75%float] tol_default 1000 [])
    = [] /\
  iterations (events (fixed_point_iteration half_plus_one [1.75%float]
                        tol_default 1000 [])) = 14%nat /\
  user_calls (events (fixed_point_iteration half_plus_one [1.75%float]
                        tol_default 1000 [])) = 14%nat.
Proof.
  apply (fixed_point_returns_at_first_close half_plus_one [1.75%float]
           tol_default 1000 [] 13).
  - vm_compute. lia.
  - intros j Hj.
    do 13 (destruct j as [|j]; [vm_compute; reflexivity|]). lia.
  - vm_compute. reflexivity.
Defined.

Lemma Newton_returns_at_first_small_step_witness :
  outcome (Newton_Raphson parabola parabola' 3%float tol_default 1000 [])
    = Returned (Nat.iter 5 (Newton_step parabola parabola') 3%float) /\
  iterations (events (Newton_Raphson parabola parabola' 3%float tol_default 1000 []))
    = 5%nat /\
  length (final_table (Newton_Raphson parabola parabola' 3%float tol_default 1000 []))
    = 5%nat.
Proof.
  apply (Newton_returns_at_first_small_step parabola parabola' 3%float
           tol_default 1000 [] 4).
  - vm_compute. lia.
  - intros j Hj.
    do 5 (destruct j as [|j]; [vm_compute; reflexivity|]). lia.
  - intros j Hj.
    do 4 (destruct j as [|j]; [vm_compute; reflexivity|]). lia.
  - vm_compute. reflexivity.
  - vm_compute. reflexivity.
Defined.

(** ** What is printed *)

Section Printing.
Context {num : Type} `{Number num}.
Implicit Types (f fp : num -> num) (fv : list num -> list num).
Implicit Types (x p tol : num) (xs : list num) (t : table num).

Lemma printed_app (w1 w2 : list (event num)) :
  printed (w1 ++ w2) = printed w1 ++ printed w2.
Proof. apply List.filter_app. Qed.

(** Rounds that fall through without printing print nothing together. *)
Lemma rounds_printed {S A} (body : Z -> S -> Py num (flow S A)) k :
  forall i s t s' t' w,
  (forall i s t s1 t1 w1,
     body i s t = (Returned (Continue s1), t1, w1) -> printed w1 = []) ->
  rounds k i body s t = Some (s', t', w) ->
  printed w = [].
Proof.
  induction k as [|k IH]; intros i s t s' t' w Hb Hr.
  - cbn in Hr. now injection Hr as <- <- <-.
  - cbn [rounds] in Hr.
    destruct (body i s t) as [[[[s1|a]|e] t1] w1] eqn:Heq; try discriminate.
    destruct (rounds k (i + 1) body s1 t1) as [[[s2 t2] w2]|] eqn:Hr2;
      try discriminate.
    injection Hr as <- <- <-.
    change (Iter i :: w1 ++ w2) with ([Iter i] ++ w1 ++ w2).
    rewrite !printed_app, (Hb _ _ _ _ _ _ Heq), (IH _ _ _ _ _ _ Hb Hr2).
    reflexivity.
Qed.

Lemma Newton_body_continue_prints_nothing f fp tol i p t s1 t1 w1 :
  Newton_body f fp tol i p t = (Returned (Continue s1), t1, w1) ->
  printed w1 = [].
Proof.
  rewrite Newton_body_cases. cbn zeta.
  repeat match goal with |- context [if ?b then _ else _] => destruct b end;
    intros [= _ _ <-] || discriminate; reflexivity.
Qed.

Lemma Secante_body_continue_prints_nothing f tol i
    (s : num * num * num * num) t s1 t1 w1 :
  Secante_body f tol i s t = (Returned (Continue s1), t1, w1) ->
  printed w1 = [].
Proof.
  destruct s as [[[a b] c] d]. rewrite Secante_body_cases. cbn zeta.
  repeat match goal with |- context [if ?b then _ else _] => destruct b end;
    intros [= _ _ <-] || discriminate; reflexivity.
Qed.

Lemma steffensen_body_with_continue_prints_nothing (pow2 : num -> num)
    f tol i x t s1 t1 w1 :
  steffensen_body_with (py_pow2_with pow2) py_div f tol i x t
    = (Returned (Continue s1), t1, w1) ->
  printed w1 = [].
Proof.
  rewrite steffensen_body_with_cases. cbn zeta.
  repeat match goal with |- context [if ?b then _ else _] => destruct b end;
    intros [= _ _ <-] || discriminate; reflexivity.
Qed.

(** X14.  What the solvers print, on Python floats (the starting points
    and the values of [f] and [fp] are of Python's own [float]) and
    whatever the square [pow2] that the C library computes for [** 2].
    Newton-Raphson and the secant method: a call that returns [r] has
    printed two things, the whole table as it is at the end and then the
    error percentage [|r - p| / |r| * 100], for a point [p] with
    [|r - p| < TOL].  A call that raises has printed nothing or, which
    only a call that raises [ZeroDivisionError] can have done, the table as
    it is at the end and nothing else; the last row of that table then
    holds a point [p] with [abs(p) == 0] whose step was below [TOL]: the
    division of the error percentage (lines 88, 137) failed after the table
    was printed.  A call that fails with the convergence [ValueError] has
    printed nothing.  Steffensen prints its warning, and nothing else,
    exactly when it returns [None]. *)
Theorem what_is_printed (pow2 : num -> num) f fp p_0 p_1 tol (max_iter : Z) t :
  let r2 := Newton_Raphson f fp p_0 tol max_iter t in
  let r3 := Secante f p_0 p_1 tol max_iter t in
  let r4 := steffensen_with (py_pow2_with pow2) py_div f p_0 tol max_iter t in
  let percent r p := mul (truediv (abs (sub r p)) (abs r)) hundred in
  let printed_by (run : result num * table num * list (event num)) :=
    match outcome run with
    | Returned r =>
        exists p, ltb (abs (sub r p)) tol = true /\
          printed (events run) =
            [PrintTable (final_table run); PrintER (percent r p)]
    | Raised e =>
        printed (events run) = [] \/
        (e = ZeroDivisionError /\
         printed (events run) = [PrintTable (final_table run)] /\
         exists rows i p q,
           final_table run = rows ++ [(i, p, f p)] /\
           eqb (abs p) zero = true /\ ltb (abs (sub p q)) tol = true)
    end /\
    (outcome run = Raised ConvergenceError -> printed (events run) = []) in
  printed_by r2 /\
  printed_by r3 /\
  (printed (events r4) =
     match outcome r4 with
     | Returned None =>
         [PrintMsg "Denominator too small. Method might not converge."]
     | _ => []
     end).
Proof.
  intros r2 r3 r4 percent printed_by. subst r2 r3 r4 percent printed_by.
  cbn beta. split; [|split].
  - rewrite Newton_Raphson_run.
    destruct (for_range_ends (Z.to_nat max_iter) 0 (Newton_body f fp tol) p_0
                (raise ConvergenceError) [])
      as [(s' & t' & w & Hr & Hrun)
         |[(k & s' & t' & w & a & t'' & w' & Hk & Hr & Hbk & Hrun)
          |(k & s' & t' & w & e' & t'' & w' & Hk & Hr & Hbk & Hrun)]];
      rewrite Hrun; unfold outcome, final_table, events; cbn [fst snd];
      pose proof (rounds_printed _ _ _ _ _ _ _ _
                    (Newton_body_continue_prints_nothing f fp tol) Hr) as Hw.
    + rewrite printed_app, Hw. split; [left; reflexivity | reflexivity].
    + split; [|discriminate].
      rewrite Newton_body_cases in Hbk. cbn zeta in Hbk.
      destruct (eqb (fp s') zero); [discriminate|].
      destruct (ltb (abs (sub (Newton_step f fp s') s')) tol) eqn:Hsmall;
        [|discriminate].
      destruct (eqb (abs (Newton_step f fp s')) zero); [discriminate|].
      injection Hbk as <- <- <-. exists s'. split; [exact Hsmall|].
      change (Iter ?i :: ?l) with ([Iter i] ++ l).
      now rewrite !printed_app, Hw.
    + change (Iter ?i :: ?l) with ([Iter i] ++ l).
      rewrite !printed_app, Hw.
      split;
        [|intros [= ->]; exfalso;
          eapply Newton_body_not_ConvergenceError; now rewrite Hbk].
      rewrite Newton_body_cases in Hbk. cbn zeta in Hbk.
      destruct (eqb (fp s') zero); [injection Hbk as <- _ <-; now left|].
      destruct (ltb (abs (sub (Newton_step f fp s') s')) tol) eqn:Hsmall;
        [|discriminate].
      destruct (eqb (abs (Newton_step f fp s')) zero) eqn:Hzero;
        [|discriminate].
      injection Hbk as <- <- <-. right.
      split; [reflexivity|]. split; [reflexivity|].
      exists t', (0 + Z.of_nat k), (Newton_step f fp s'), s'.
      split; [reflexivity|]. split; [exact Hzero | exact Hsmall].
  - rewrite Secante_run. cbn zeta.
    destruct (for_range_ends (Z.to_nat max_iter) 0 (Secante_body f tol)
                (p_0, f p_0, p_1, f p_1) (raise ConvergenceError)
                [(0, p_0, f p_0); (1, p_1, f p_1)])
      as [(s' & t' & w & Hr & Hrun)
         |[(k & s' & t' & w & a & t'' & w' & Hk & Hr & Hbk & Hrun)
          |(k & s' & t' & w & e' & t'' & w' & Hk & Hr & Hbk & Hrun)]];
      rewrite Hrun; unfold outcome, final_table, events; cbn [fst snd];
      pose proof (rounds_printed _ _ _ _ _ _ _ _
                    (Secante_body_continue_prints_nothing f tol) Hr) as Hw;
      change (CallF p_0 :: CallF p_1 :: ?l) with ([CallF p_0; CallF p_1] ++ l).
    + rewrite !printed_app, Hw. split; [left; reflexivity | reflexivity].
    + split; [|discriminate].
      destruct s' as [[[a0 b0] c0] d0].
      rewrite Secante_body_cases in Hbk. cbn zeta in Hbk.
      destruct (eqb (sub d0 b0) zero); [discriminate|].
      destruct (ltb (abs (sub (Secante_step a0 b0 c0 d0) c0)) tol) eqn:Hsmall;
        [|discriminate].
      destruct (eqb (abs (Secante_step a0 b0 c0 d0)) zero); [discriminate|].
      injection Hbk as <- <- <-. exists c0. split; [exact Hsmall|].
      change (Iter ?i :: ?l) with ([Iter i] ++ l).
      now rewrite !printed_app, Hw.
    + change (Iter ?i :: ?l) with ([Iter i] ++ l).
      rewrite !printed_app, Hw.
      split;
        [|intros [= ->]; exfalso;
          eapply Secante_body_not_ConvergenceError; now rewrite Hbk].
      destruct s' as [[[a0 b0] c0] d0].
      rewrite Secante_body_cases in Hbk. cbn zeta in Hbk.
      destruct (eqb (sub d0 b0) zero); [injection Hbk as <- _ <-; now left|].
      destruct (ltb (abs (sub (Secante_step a0 b0 c0 d0) c0)) tol) eqn:Hsmall;
        [|discriminate].
      destruct (eqb (abs (Secante_step a0 b0 c0 d0)) zero) eqn:Hzero;
        [|discriminate].
      injection Hbk as <- <- <-. right.
      split; [reflexivity|]. split; [reflexivity|].
      exists t', (0 + Z.of_nat k), (Secante_step a0 b0 c0 d0), c0.
      split; [reflexivity|]. split; [exact Hzero | exact Hsmall].
  - unfold steffensen_with.
    destruct (for_range_ends (Z.to_nat max_iter) 0
                (steffensen_body_with (py_pow2_with pow2) py_div f tol) p_0
                (raise ConvergenceError) t)
      as [(s' & t' & w & Hr & Hrun)
         |[(k & s' & t' & w & a & t'' & w' & Hk & Hr & Hbk & Hrun)
          |(k & s' & t' & w & e' & t'' & w' & Hk & Hr & Hbk & Hrun)]];
      rewrite Hrun; unfold outcome, final_table, events; cbn [fst snd];
      pose proof (rounds_printed _ _ _ _ _ _ _ _
                    (steffensen_body_with_continue_prints_nothing pow2 f tol) Hr)
        as Hw.
    + now rewrite printed_app, Hw.
    + change (Iter ?i :: ?l) with ([Iter i] ++ l).
      rewrite !printed_app, Hw.
      rewrite steffensen_body_with_cases in Hbk. cbn zeta in Hbk.
      repeat match type of Hbk with context [if ?b then _ else _] => destruct b end;
        try discriminate; injection Hbk as <- _ <-; reflexivity.
    + change (Iter ?i :: ?l) with ([Iter i] ++ l).
      rewrite !printed_app, Hw.
      rewrite steffensen_body_with_cases in Hbk. cbn zeta in Hbk.
      repeat match type of Hbk with context [if ?b then _ else _] => destruct b end;
        try discriminate; injection Hbk as _ _ <-; reflexivity.
Qed.

End Printing.

Lemma what_is_printed_witness :
  (exists p, ltb (abs (sub 2%float p)) tol_default = true /\
     printed (events (Newton_Raphson parabola parabola' 3%float tol_default 1000 []))
     = [PrintTable
          (final_table (Newton_Raphson parabola parabola' 3%float tol_default 1000 []));
        PrintER (mul (truediv (abs (sub 2%float p)) (abs 2%float)) hundred)]) /\
  outcome (Secante identity 1%float 2%float tol_default 1000 [])
    = Raised ZeroDivisionError /\
  printed (events (Secante identity 1%float 2%float tol_default 1000 []))
    = [PrintTable
         (final_table (Secante identity 1%float 2%float tol_default 1000 []))].
Proof.
  split; [|split].
  - pose proof (proj1 (proj1 (what_is_printed square parabola parabola'
                                3%float 4%float tol_default 1000 []))) as Hp.
    vm_compute in Hp. vm_compute. exact Hp.
  - vm_compute. reflexivity.
  - pose proof (proj1 (proj1 (proj2 (what_is_printed square identity parabola'
                                       1%float 2%float tol_default 1000 []))))
      as Hp.
    vm_compute in Hp. vm_compute.
    destruct Hp as [Hp | (_ & Hp & _)]; [discriminate | exact Hp].
Defined.

(** ** Starting points with equal values *)

Section EqualValues.
Context {num : Type} `{ZeroLaws num}.
Implicit Types (f : num -> num) (p tol : num) (t : table num).

(** X15.  On Python floats ([p_0], [p_1] and the values of [f] are of
    Python's own [float], so that line 133 divides with [py_div]): the
    secant method on starting points where [f] takes the same value divides
    by zero in its first round: with a budget of at least one round the
    call raises [ZeroDivisionError] after the two calls of [f] that seed
    the table, which is left with its two rows.  Equal starting points
    [p_0 = p_1] with a finite value [f(p_0)] are such a case.  (With
    [numpy.float64] values the quotient is a NaN and the call goes on to
    the convergence failure: see [numpy_values_raise_nothing].) *)
Theorem Secante_equal_values_raise f p_0 p_1 tol (N_0 : Z) t :
  0 < N_0 ->
  (eqb (sub (f p_1) (f p_0)) zero = true ->
   Secante f p_0 p_1 tol N_0 t =
     (Raised ZeroDivisionError, [(0, p_0, f p_0); (1, p_1, f p_1)],
      [CallF p_0; CallF p_1; Iter 0])) /\
  (isfinite (f p_0) = true ->
   Secante f p_0 p_0 tol N_0 t =
     (Raised ZeroDivisionError, [(0, p_0, f p_0); (1, p_0, f p_0)],
      [CallF p_0; CallF p_0; Iter 0])).
Proof.
  intros Hpos.
  assert (forall q_1,
            eqb (sub (f q_1) (f p_0)) zero = true ->
            Secante f p_0 q_1 tol N_0 t =
              (Raised ZeroDivisionError, [(0, p_0, f p_0); (1, q_1, f q_1)],
               [CallF p_0; CallF q_1; Iter 0])) as Hgen.
  { intros q_1 Hz. rewrite Secante_run. cbn zeta.
    destruct (Z.to_nat N_0) as [|n] eqn:Hn; [lia|].
    rewrite for_range_S, Secante_body_cases, Hz. reflexivity. }
  split; [apply Hgen|].
  intros Hfin. apply Hgen. now apply sub_diag.
Qed.

End EqualValues.

Lemma Secante_equal_values_raise_witness :
  Secante parabola (-2)%float 2%float tol_default 1000 [] =
    (Raised ZeroDivisionError,
     [(0, (-2)%float, parabola (-2)); (1, 2%float, parabola 2)],
     [CallF (-2)%float; CallF 2%float; Iter 0]) /\
  Secante parabola 3%float 3%float tol_default 1000 [] =
    (Raised ZeroDivisionError,
     [(0, 3%float, parabola 3); (1, 3%float, parabola 3)],
     [CallF 3%float; CallF 3%float; Iter 0]).
Proof.
  split.
  - apply (proj1 (Secante_equal_values_raise parabola (-2)%float 2%float
                    tol_default 1000 [] ltac:(lia))).
    vm_compute. reflexivity.
  - apply (proj2 (Secante_equal_values_raise parabola 3%float 2%float
                    tol_default 1000 [] ltac:(lia))).
    vm_compute. reflexivity.
Defined.

(** ** Values that are [numpy.float64] *)

Section NumpyValues.
Context {num : Type} `{Number num}.
Implicit Types (f fp : num -> num) (p tol : num) (t : table num).
Implicit Types (div : num -> num -> Py num num).

(** With numpy's division no round of Newton-Raphson or of the secant
    method raises. *)
Lemma Newton_body_with_np_div f fp tol i p t e :
  outcome (Newton_body_with np_div f fp tol i p t) <> Raised e.
Proof.
  unfold Newton_body_with, np_div. py_unfold. cbn.
  destruct (ltb _ tol); cbn; discriminate.
Qed.

Lemma Secante_body_with_np_div f tol i (s : num * num * num * num) t e :
  outcome (Secante_body_with np_div f tol i s t) <> Raised e.
Proof.
  destruct s as [[[p_0 q_0] p_1] q_1].
  unfold Secante_body_with, np_div. py_unfold. cbn.
  destruct (ltb _ tol); cbn; discriminate.
Qed.

(** The solvers of [Dispatch] as runs of their loops. *)
Lemma Newton_Raphson_with_run div f fp p_0 tol (N_0 : Z) t :
  Newton_Raphson_with div f fp p_0 tol N_0 t =
  for_range (Z.to_nat N_0) 0 (Newton_body_with div f fp tol) p_0
    (raise ConvergenceError) [].
Proof.
  unfold Newton_Raphson_with, bind at 1, clear_rows.
  now destruct (for_range _ 0 _ p_0 _ []) as [[r t'] w].
Qed.

Lemma Secante_with_run div f p_0 p_1 tol (N_0 : Z) t :
  Secante_with div f p_0 p_1 tol N_0 t =
  let r := for_range (Z.to_nat N_0) 0 (Secante_body_with div f tol)
             (p_0, f p_0, p_1, f p_1) (raise ConvergenceError)
             [(0, p_0, f p_0); (1, p_1, f p_1)] in
  (outcome r, final_table r, CallF p_0 :: CallF p_1 :: events r).
Proof.
  unfold Secante_with. py_unfold. cbn.
  now destruct (for_range _ 0 _ _ _ _) as [[r t'] w].
Qed.

(** So a call on [numpy.float64] values returns or fails with the
    convergence [ValueError]: a zero divisor on line 84, 88, 133 or 137
    stops nothing. *)
Lemma numpy_division_raises_nothing f fp p_0 p_1 tol (N_0 : Z) t e :
  (outcome (Newton_Raphson_with np_div f fp p_0 tol N_0 t) = Raised e ->
   e = ConvergenceError) /\
  (outcome (Secante_with np_div f p_0 p_1 tol N_0 t) = Raised e ->
   e = ConvergenceError).
Proof.
  split; intros Hout.
  - rewrite Newton_Raphson_with_run in Hout.
    apply for_range_raises in Hout as [->|(i' & s' & t'' & Hb)]; [reflexivity|].
    now apply Newton_body_with_np_div in Hb.
  - rewrite Secante_with_run in Hout. cbn zeta in Hout.
    unfold outcome at 1 in Hout. cbn [fst] in Hout.
    apply for_range_raises in Hout as [->|(i' & s' & t'' & Hb)]; [reflexivity|].
    now apply Secante_body_with_np_div in Hb.
Qed.

End NumpyValues.

(** Three calls on [numpy.float64] values, in binary64.

    [Newton_Raphson(f, fp, np.float64(0.0))] for [f = lambda x: x] and
    [fp = lambda x: 1.0] returns the root [0.0], where Python floats raise
    on line 88; the error percentage printed is [nan].

    [Secante(f, np.float64(1.0), 2.0)] for the same [f] returns [0.0] from
    its second round in the same way.

    [Secante(lambda x: x * x - 4, np.float64(-2.0), 2.0, N_0=3)] has
    [f(p_0) = f(p_1)]: the quotient of line 133 is [0.0 / 0.0], a NaN, and
    the call goes through its three rounds to the convergence failure. *)
Example numpy_values_raise_nothing :
  Newton_Raphson_with np_div identity const_one 0%float tol_default 1000 [] =
    (Returned 0%float, [(0, 0%float, 0%float)],
     [Iter 0; CallF 0%float; CallFp 0%float; CallF 0%float;
      PrintTable [(0, 0%float, 0%float)]; PrintER nan]) /\
  outcome (Secante_with np_div identity 1%float 2%float tol_default 1000 [])
    = Returned 0%float /\
  Secante_with np_div parabola (-2)%float 2%float tol_default 3 [] =
    (Raised ConvergenceError,
     [(0, (-2)%float, 0%float); (1, 2%float, 0%float);
      (0, nan, nan); (1, nan, nan); (2, nan, nan)],
     [CallF (-2)%float; CallF 2%float; Iter 0; CallF nan; CallF nan;
      Iter 1; CallF nan; CallF nan; Iter 2; CallF nan; CallF nan]).
Proof. vm_compute. split; [|split]; reflexivity. Qed.
